(** * flytekit: the FlyteFile and StructuredDataset type transformers

    A shallow embedding of [flytekit/types/file/file.py] and
    [flytekit/types/structured/structured_dataset.py].

    Python code that raises, mutates class attributes and calls out to the
    storage layer is written in a state-and-exception monad over a [World]:
    the calls received by the collaborators are appended to a trace, and a
    raised exception keeps every mutation made before it, as in Python. *)

From stdpp Require Import base strings list gmap.
From Stdlib Require Import Ascii String.

Local Open Scope string_scope.
Local Open Scope list_scope.

(** ** Exceptions and results *)

Inductive PyExn :=
| AssertionError
| ValueError
| TypeError
| AttributeError
| KeyError
| NotImplementedError
| CollaboratorError (name : string).

Inductive Result (A : Type) :=
| Returns (a : A)
| Raises (e : PyExn).
Arguments Returns {A} a.
Arguments Raises {A} e.

(** ** Keys of the handler registries

    [register_handler] is keyed by [Union[Type, DatasetFormat]]: a member of
    the [DatasetFormat] enum or a Python class, identified by its name. *)

Inductive DatasetFormat := PARQUET | BIGQUERY.

Inductive TypeKey :=
| key_format (f : DatasetFormat)
| key_class (name : string).

#[global] Instance DatasetFormat_eq_dec : EqDecision DatasetFormat.
Proof. solve_decision. Defined.
#[global] Instance TypeKey_eq_dec : EqDecision TypeKey.
Proof. solve_decision. Defined.

Definition TypeKey_to_sum (k : TypeKey) : bool + string :=
  match k with
  | key_format PARQUET => inl true
  | key_format BIGQUERY => inl false
  | key_class n => inr n
  end.
Definition TypeKey_of_sum (s : bool + string) : TypeKey :=
  match s with
  | inl true => key_format PARQUET
  | inl false => key_format BIGQUERY
  | inr n => key_class n
  end.
#[global] Instance TypeKey_countable : Countable TypeKey.
Proof.
  apply (inj_countable' TypeKey_to_sum TypeKey_of_sum).
  intros [[]|]; reflexivity.
Defined.

(** ** Data handled by the dataset handlers

    Column element types: the keys of [_SUPPORTED_TYPES], the two generic
    aliases the column mapper recurses through, and any other type. *)

Inductive ColumnType :=
| np_int32 | np_int64 | np_uint32 | np_uint64 | py_int
| pa_int8 | pa_int16 | pa_int32 | pa_int64
| np_float32 | np_float64 | py_float
| pa_float16 | pa_float32 | pa_float64
| np_bool_ | py_bool | pa_bool_
| np_datetime64 | datetime_datetime
| np_timedelta64 | datetime_timedelta
| np_string_ | np_str_ | np_object_ | py_str | pa_string
| typing_List (arg : ColumnType)
| typing_Dict (key_arg value_arg : ColumnType)
| unsupported_type (name : string).

(** An in-memory tabular object: a [pa.Table], a [pd.DataFrame] (carrying the
    schema that [pa.Table.from_pandas] reads off it) or an instance of any
    other class.  [payload] stands for the contents. *)
Inductive DataObj :=
| pa_Table (schema : list (string * ColumnType)) (payload : nat)
| pd_DataFrame (schema : list (string * ColumnType)) (payload : nat)
| other_object (class_name : string) (payload : nat).

(** ** Collaborators *)

(** Calls received by the collaborators, in the order they are made. *)
Inductive CallableTag :=
| tag_noop
| tag_downloader (uri local_path : string)
| tag_callable (id : nat).

Inductive Event :=
| Ev_put_data (local_path remote_path : string) (is_multipart : bool)
| Ev_get_data (remote_path local_path : string) (is_multipart : bool)
| Ev_get_random_remote_path (hint : option string)
| Ev_get_random_local_path (hint : string)
| Ev_warning
| Ev_call (c : CallableTag)
| Ev_override_transformer (t : TypeKey)
| Ev_retrieve (handler : nat) (path : string)
| Ev_decode (handler : nat) (table : DataObj)
| Ev_encode (handler : nat) (df : DataObj)
| Ev_persist (handler : nat) (df : DataObj) (uri : string).

(** Modelled from the spec: [ctx.file_access], the storage collaborator
    ([isRemote], [randomRemotePath], [randomLocalPath], [putData],
    [getData]), whose code is not in these modules.  Its behaviour is a
    parameter: the remote-path predicate, the [n]-th path each generator
    mints, and whether a copy returns ([None]) or raises. *)
Record FileAccessProvider := {
  fa_is_remote : string -> bool;
  fa_random_remote_path : nat -> option string -> string;
  fa_random_local_path : nat -> string -> string;
  fa_put_data_outcome : string -> string -> option PyExn;
  fa_get_data_outcome : string -> string -> option PyExn
}.

Record FlyteContext := { file_access : FileAccessProvider }.

(** A handler object registered with the dataset transformer: which of the
    four abstract base classes it is an instance of, and what its methods
    return. *)
Record Handler := {
  handler_id : nat;
  isinstance_DatasetRetrievalHandler : bool;
  isinstance_DatasetPersistenceHandler : bool;
  isinstance_DatasetEncodingHandler : bool;
  isinstance_DatasetDecodingHandler : bool;
  retrieve_method : string -> Result DataObj;
  persist_method : DataObj -> string -> Result unit;
  encode_method : DataObj -> Result DataObj;
  decode_method : DataObj -> Result DataObj
}.

(** ** The world

    The process state the two modules read and write: the filesystem as seen
    by [pathlib.Path(p).is_file()], the number of paths minted so far, the
    trace of collaborator calls, and the class attributes of
    [StructuredDatasetTransformer]. *)
Record World := {
  path_is_file : string -> bool;
  minted : nat;
  trace : list Event;
  _REGISTER_TYPES : list TypeKey;
  DATASET_DECODING_HANDLERS : gmap TypeKey (gmap TypeKey Handler);
  DATASET_ENCODING_HANDLERS : gmap TypeKey (gmap TypeKey Handler);
  DATASET_PERSISTENCE_HANDLERS : gmap TypeKey (gmap TypeKey Handler);
  DATASET_RETRIEVAL_HANDLERS : gmap TypeKey (gmap TypeKey Handler)
}.

Definition set_trace (t : list Event) (w : World) : World :=
  {| path_is_file := path_is_file w; minted := minted w; trace := t;
     _REGISTER_TYPES := _REGISTER_TYPES w;
     DATASET_DECODING_HANDLERS := DATASET_DECODING_HANDLERS w;
     DATASET_ENCODING_HANDLERS := DATASET_ENCODING_HANDLERS w;
     DATASET_PERSISTENCE_HANDLERS := DATASET_PERSISTENCE_HANDLERS w;
     DATASET_RETRIEVAL_HANDLERS := DATASET_RETRIEVAL_HANDLERS w |}.

Definition set_minted (n : nat) (w : World) : World :=
  {| path_is_file := path_is_file w; minted := n; trace := trace w;
     _REGISTER_TYPES := _REGISTER_TYPES w;
     DATASET_DECODING_HANDLERS := DATASET_DECODING_HANDLERS w;
     DATASET_ENCODING_HANDLERS := DATASET_ENCODING_HANDLERS w;
     DATASET_PERSISTENCE_HANDLERS := DATASET_PERSISTENCE_HANDLERS w;
     DATASET_RETRIEVAL_HANDLERS := DATASET_RETRIEVAL_HANDLERS w |}.

(** ** The monad *)

Definition M (A : Type) : Type := World -> Result A * World.

#[global] Instance M_ret : MRet M := fun A a w => (Returns a, w).
#[global] Instance M_bind : MBind M := fun A B f m w =>
  match m w with
  | (Returns a, w') => f a w'
  | (Raises e, w') => (Raises e, w')
  end.

Definition raise {A} (e : PyExn) : M A := fun w => (Raises e, w).
Definition emit (ev : Event) : M unit :=
  fun w => (Returns tt, set_trace (trace w ++ [ev]) w).
Definition read {A} (f : World -> A) : M A := fun w => (Returns (f w), w).
Definition modify (f : World -> World) : M unit := fun w => (Returns tt, f w).

(** Lifting the outcome of a collaborator method into the monad. *)
Definition outcome (o : option PyExn) : M unit :=
  match o with
  | None => mret tt
  | Some e => raise e
  end.
Definition lift_result {A} (r : Result A) : M A :=
  match r with
  | Returns a => mret a
  | Raises e => raise e
  end.

(** The methods of [ctx.file_access]. *)
Definition is_remote (ctx : FlyteContext) (path : string) : bool :=
  fa_is_remote (file_access ctx) path.

Definition get_random_remote_path (ctx : FlyteContext) (hint : option string) : M string :=
  fun w =>
    (Returns (fa_random_remote_path (file_access ctx) (minted w) hint),
     set_minted (S (minted w)) (set_trace (trace w ++ [Ev_get_random_remote_path hint]) w)).

Definition get_random_local_path (ctx : FlyteContext) (hint : string) : M string :=
  fun w =>
    (Returns (fa_random_local_path (file_access ctx) (minted w) hint),
     set_minted (S (minted w)) (set_trace (trace w ++ [Ev_get_random_local_path hint]) w)).

Definition put_data (ctx : FlyteContext) (local_path remote_path : string)
    (is_multipart : bool) : M unit :=
  emit (Ev_put_data local_path remote_path is_multipart);;
  outcome (fa_put_data_outcome (file_access ctx) local_path remote_path).

Definition get_data (ctx : FlyteContext) (remote_path local_path : string)
    (is_multipart : bool) : M unit :=
  emit (Ev_get_data remote_path local_path is_multipart);;
  outcome (fa_get_data_outcome (file_access ctx) remote_path local_path).

(** Python truthiness of an optional string: [None] and [""] are falsy. *)
Definition truthy (o : option string) : bool :=
  match o with
  | Some (String _ _) => true
  | _ => false
  end.

(** The path prefixes that the [FlyteFile] docstring lists as remote:
    [s3://], [gs://], [http(s)://] and [file://]. *)
Definition is_remote_by_scheme (path : string) : bool :=
  String.prefix "s3://" path || String.prefix "gs://" path
  || String.prefix "http://" path || String.prefix "https://" path
  || String.prefix "file://" path.

(** ** The portable literal model (flytekit.models)

    Modelled from the spec: the Blob and StructuredDataset literals and the
    literal type descriptors, which these modules import. *)

Inductive BlobDimensionality := SINGLE | MULTIPART.
Record BlobType := { format : string; dimensionality : BlobDimensionality }.
Record BlobMetadata := { blob_type : BlobType }.
Record Blob := { blob_metadata : BlobMetadata; blob_uri : string }.

(** The simple scalar kinds.  The code names INTEGER, FLOAT, STRING, BOOLEAN,
    DATETIME and DURATION; the other members of the enumeration are kept so
    that a simple type outside those six exists. *)
Inductive SimpleType :=
| NONE | INTEGER | FLOAT | STRING | BOOLEAN | DATETIME | DURATION
| BINARY | ERROR | STRUCT.

Inductive LiteralType :=
| LiteralType_simple (simple : SimpleType)
| LiteralType_collection_type (collection_type : LiteralType)
| LiteralType_map_value_type (map_value_type : LiteralType)
| LiteralType_blob (blob : BlobType)
| LiteralType_structured_dataset_type (columns : list DatasetColumn)
with DatasetColumn :=
| Build_DatasetColumn (name : string) (literal_type : LiteralType).

(** [StructuredDatasetType] is its list of columns. *)
Definition StructuredDatasetType : Type := list DatasetColumn.

Definition name (c : DatasetColumn) : string :=
  match c with Build_DatasetColumn n _ => n end.
Definition literal_type (c : DatasetColumn) : LiteralType :=
  match c with Build_DatasetColumn _ t => t end.

Record StructuredDatasetMetadata := {
  sd_format : string;
  sd_structured_dataset_type : StructuredDatasetType
}.
Record StructuredDatasetLiteral := {
  sd_uri : string;
  sd_metadata : StructuredDatasetMetadata
}.

Inductive Scalar :=
| Scalar_blob (blob : Blob)
| Scalar_structured_dataset (structured_dataset : StructuredDatasetLiteral).
Record Literal := { scalar : Scalar }.

(** The fields of a [LiteralType], [None] when unset. *)
Definition simple (t : LiteralType) : option SimpleType :=
  match t with LiteralType_simple s => Some s | _ => None end.
Definition structured_dataset_type (t : LiteralType) : option StructuredDatasetType :=
  match t with LiteralType_structured_dataset_type c => Some c | _ => None end.

(** ** Callables

    A download action: the module-level [noop], the closure [_downloader]
    that [to_python_value] builds (it captures [ctx], [uri] and
    [local_path]), or a callable supplied by the user, of which only the
    identity and whether it returns or raises is known. *)
Inductive Callable :=
| noop
| downloader_closure (ctx : FlyteContext) (uri local_path : string)
| callable (id : nat) (result : option PyExn).

Definition tag_of (c : Callable) : CallableTag :=
  match c with
  | noop => tag_noop
  | downloader_closure _ uri local_path => tag_downloader uri local_path
  | callable id _ => tag_callable id
  end.

Definition call (c : Callable) : M unit :=
  emit (Ev_call (tag_of c));;
  match c with
  | noop => mret tt
  | downloader_closure ctx uri local_path => get_data ctx uri local_path false
  | callable _ result => outcome result
  end.

(** ** Python string methods used by [__class_getitem__] *)

(** [str.isspace] on the ASCII range: TAB..CR, FS..US and the space.
    Strings are modelled as ASCII text; on characters outside that range
    Python also strips U+0085, U+00A0 and the other Unicode white space. *)
Definition isspace (c : ascii) : bool :=
  let n := nat_of_ascii c in
  ((9 <=? n)%nat && (n <=? 13)%nat) || ((28 <=? n)%nat && (n <=? 32)%nat).

Fixpoint lstrip_while (p : ascii -> bool) (s : string) : string :=
  match s with
  | EmptyString => EmptyString
  | String c s' => if p c then lstrip_while p s' else s
  end.

Definition rstrip_while (p : ascii -> bool) (s : string) : string :=
  String.rev (lstrip_while p (String.rev s)).

(** [s.strip()] and [s.lstrip(c)] for a one-character argument. *)
Definition strip (s : string) : string := rstrip_while isspace (lstrip_while isspace s).
Definition lstrip (c : ascii) (s : string) : string := lstrip_while (Ascii.eqb c) s.

(** * flytekit/types/file/file.py *)

Module file.

(** The class [FlyteFile] and the classes [_SpecificFormatClass] that
    [FlyteFile[item]] creates; the latter carry [item], which their
    [extension()] returns. *)
Inductive FlyteFileClass :=
| FlyteFile_class
| _SpecificFormatClass (item : string).

Definition extension (cls : FlyteFileClass) : string :=
  match cls with
  | FlyteFile_class => ""
  | _SpecificFormatClass item => item
  end.

(** [item] is [None] or the text [str(item)]. *)
Definition __class_getitem__ (cls : FlyteFileClass) (item : option string) : FlyteFileClass :=
  match item with
  | None => cls
  | Some item =>
      let item := lstrip "." (lstrip "~" (strip item)) in
      if String.eqb item "" then cls else _SpecificFormatClass item
  end.

(** The [remote_path] argument: [None], [False] or a string. *)
Inductive RemotePath :=
| remote_path_None
| remote_path_False
| remote_path_str (s : string).

Record FlyteFile := {
  class_of : FlyteFileClass;
  _path : string;
  _downloader : Callable;
  _downloaded : bool;
  _remote_path : RemotePath;
  _remote_source : option string
}.

Definition __init__ (cls : FlyteFileClass) (path : string) (downloader : Callable)
    (remote_path : RemotePath) : FlyteFile :=
  {| class_of := cls; _path := path; _downloader := downloader;
     _downloaded := false; _remote_path := remote_path; _remote_source := None |}.

Definition set_downloaded (b : bool) (self : FlyteFile) : FlyteFile :=
  {| class_of := class_of self; _path := _path self; _downloader := _downloader self;
     _downloaded := b; _remote_path := _remote_path self;
     _remote_source := _remote_source self |}.

Definition set_remote_source (s : option string) (self : FlyteFile) : FlyteFile :=
  {| class_of := class_of self; _path := _path self; _downloader := _downloader self;
     _downloaded := _downloaded self; _remote_path := _remote_path self;
     _remote_source := s |}.

(** [__fspath__] mutates [self]: the object is threaded next to the world.
    When the downloader raises, the assignment to [_downloaded] is not
    reached. *)
Definition __fspath__ (self : FlyteFile) (w : World) : Result string * FlyteFile * World :=
  if negb (_downloaded self) then
    match call (_downloader self) w with
    | (Returns _, w') => (Returns (_path self), set_downloaded true self, w')
    | (Raises e, w') => (Raises e, self, w')
    end
  else (Returns (_path self), self, w).

Definition downloaded (self : FlyteFile) : bool := _downloaded self.
Definition remote_path (self : FlyteFile) : RemotePath := _remote_path self.
Definition path (self : FlyteFile) : string := _path self.
Definition remote_source (self : FlyteFile) : option string := _remote_source self.

Definition trigger_download (self : FlyteFile) : M unit :=
  match _downloader self with
  | noop => raise ValueError
  | d => call d
  end.

(** [n] successive dereferences of the same object, each caller going on
    after an exception; the results come oldest first. *)
Fixpoint dereferences (n : nat) (self : FlyteFile) (w : World)
    : list (Result string) * FlyteFile * World :=
  match n with
  | O => ([], self, w)
  | S n' =>
      let '(r, self', w') := __fspath__ self w in
      let '(rs, self'', w'') := dereferences n' self' w' in
      (r :: rs, self'', w'')
  end.

(** The declared Python type handed to the transformer: a [FlyteFile] class,
    [pathlib.Path] (or [PosixPath], [WindowsPath]), [os.PathLike], or another
    class. *)
Inductive PyType :=
| type_FlyteFile (cls : FlyteFileClass)
| type_pathlib_Path
| type_os_PathLike
| type_other (name : string).

Definition issubclass_pathlib_Path (t : PyType) : bool :=
  match t with type_pathlib_Path => true | _ => false end.
Definition is_os_PathLike (t : PyType) : bool :=
  match t with type_os_PathLike => true | _ => false end.
Definition issubclass_FlyteFile (t : PyType) : bool :=
  match t with type_FlyteFile _ => true | _ => false end.

(** The Python value handed to [to_literal].  A [pathlib.Path] is given by
    its [str()]. *)
Inductive PyValue :=
| value_None
| value_FlyteFile (f : FlyteFile)
| value_Path (str_of : string)
| value_str (s : string)
| value_other (class_name : string).

(** What [to_python_value] returns: a [FlyteFile], or [pathlib.Path(uri)]
    given by the argument of its constructor. *)
Inductive Decoded :=
| decoded_FlyteFile (f : FlyteFile)
| decoded_Path (constructor_arg : string).

(** [t.extension()]: only the [FlyteFile] classes define [extension];
    [pathlib.Path], [os.PathLike] and other classes have no such attribute. *)
Definition get_format (t : PyType) : M string :=
  match t with
  | type_FlyteFile cls => mret (extension cls)
  | _ => raise AttributeError
  end.

Definition _blob_type (format : string) : BlobType :=
  {| format := format; dimensionality := SINGLE |}.

Definition get_literal_type (t : PyType) : M LiteralType :=
  format ← get_format t;
  mret (LiteralType_blob (_blob_type format)).

Definition Blob_literal (meta : BlobMetadata) (uri : string) : Literal :=
  {| scalar := Scalar_blob {| blob_metadata := meta; blob_uri := uri |} |}.

(** [pathlib.Path(python_val).is_file()], read off the world. *)
Definition is_file (p : string) : M bool := read (fun w => path_is_file w p).

(** [python_val.remote_path or None] *)
Definition remote_path_or_None (r : RemotePath) : option string :=
  match r with
  | remote_path_str (String c s) => Some (String c s)
  | _ => None
  end.

Definition is_False (r : RemotePath) : bool :=
  match r with remote_path_False => true | _ => false end.

Definition to_literal (ctx : FlyteContext) (python_val : PyValue) (python_type : PyType)
    (expected : LiteralType) : M Literal :=
  match python_val with
  | value_None => raise AssertionError
  | _ =>
    format ← get_format python_type;
    let meta := {| blob_type := _blob_type format |} in
    (* the three locals [source_path], [should_upload], [remote_path], or the
       literal of the early return *)
    decision ←
      match python_val with
      | value_FlyteFile f =>
          let source_path := path f in
          match _remote_source f with
          | Some remote_source => mret (inl (Blob_literal meta remote_source))
          | None =>
              let should_upload :=
                if is_False (remote_path f) || is_remote ctx source_path
                then false else true in
              should_upload ←
                (if issubclass_pathlib_Path python_type || is_os_PathLike python_type
                 then emit Ev_warning;; mret false
                 else mret should_upload);
              mret (inr (source_path, should_upload, remote_path_or_None (remote_path f)))
          end
      | value_Path p =>
          isfile ← is_file p;
          if negb isfile then raise ValueError
          else
            let source_path := p in
            mret (inr (source_path,
                       negb (is_remote ctx source_path || issubclass_pathlib_Path python_type
                             || is_os_PathLike python_type),
                       None))
      | value_str s =>
          isfile ← is_file s;
          if negb isfile then raise ValueError
          else
            let source_path := s in
            mret (inr (source_path,
                       negb (is_remote ctx source_path || issubclass_pathlib_Path python_type
                             || is_os_PathLike python_type),
                       None))
      | _ => raise AssertionError
      end;
    match decision with
    | inl literal => mret literal
    | inr (source_path, should_upload, remote_path) =>
        if should_upload : bool then
          remote_path ←
            match remote_path with
            | None => get_random_remote_path ctx (Some source_path)
            | Some r => mret r
            end;
          put_data ctx source_path remote_path false;;
          mret (Blob_literal meta remote_path)
        else mret (Blob_literal meta source_path)
    end
  end.

(** [expected_python_type(uri)]: [os.PathLike] is abstract and cannot be
    instantiated. *)
Definition construct (t : PyType) (uri : string) : M Decoded :=
  match t with
  | type_FlyteFile cls => mret (decoded_FlyteFile (__init__ cls uri noop remote_path_None))
  | type_pathlib_Path => mret (decoded_Path uri)
  | _ => raise TypeError
  end.

Definition to_python_value (ctx : FlyteContext) (lv : Literal) (expected_python_type : PyType)
    : M Decoded :=
  match scalar lv with
  | Scalar_blob b =>
      let uri := blob_uri b in
      if is_os_PathLike expected_python_type || issubclass_pathlib_Path expected_python_type
      then construct expected_python_type uri
      else if negb (issubclass_FlyteFile expected_python_type) then raise TypeError
      else if negb (is_remote ctx uri) then construct expected_python_type uri
      else
        local_path ← get_random_local_path ctx uri;
        expected_format ← get_format expected_python_type;
        let ff := __init__ (__class_getitem__ FlyteFile_class (Some expected_format))
                           local_path (downloader_closure ctx uri local_path) remote_path_None in
        mret (decoded_FlyteFile (set_remote_source (Some uri) ff))
  | _ => raise AttributeError
  end.

(** [self == other].  A string compares with the path; a [pathlib.Path],
    [None] or an object of a class that does not compare equal to strings is
    never equal to [self._path]. *)
Definition RemotePath_eqb (a b : RemotePath) : bool :=
  match a, b with
  | remote_path_None, remote_path_None => true
  | remote_path_False, remote_path_False => true
  | remote_path_str s, remote_path_str t => String.eqb s t
  | _, _ => false
  end.

Definition __eq__ (self : FlyteFile) (other : PyValue) : bool :=
  match other with
  | value_FlyteFile other =>
      String.eqb (_path self) (_path other)
      && RemotePath_eqb (_remote_path self) (_remote_path other)
      && String.eqb (extension (class_of self)) (extension (class_of other))
  | value_str s => String.eqb (_path self) s
  | _ => false
  end.

Definition __str__ (self : FlyteFile) : string := _path self.

End file.

(** * flytekit/types/structured/structured_dataset.py *)

#[global] Instance Result_ret : MRet Result := fun A a => Returns a.
#[global] Instance Result_bind : MBind Result := fun A B f r =>
  match r with
  | Returns a => f a
  | Raises e => Raises e
  end.

(** A Python [dict] with string keys: the items in insertion order, the keys
    pairwise distinct.  [d[k] = v] replaces the value of a key already
    present and appends a new key at the end. *)
Fixpoint dict_setitem {V} (k : string) (v : V) (d : list (string * V)) : list (string * V) :=
  match d with
  | [] => [(k, v)]
  | (k', v') :: d' =>
      if String.eqb k k' then (k', v) :: d' else (k', v') :: dict_setitem k v d'
  end.

Module structured_dataset.

Definition DatasetFormat_name (f : DatasetFormat) : string :=
  match f with PARQUET => "PARQUET" | BIGQUERY => "BIGQUERY" end.

Definition value_of (value : string) : Result DatasetFormat :=
  if String.eqb "PARQUET" value then Returns PARQUET
  else if String.eqb "BIGQUERY" value then Returns BIGQUERY
  else Raises ValueError.

(** The class [StructuredDataset] and the classes [_TypedStructuredDataset]
    that [StructuredDataset[columns]] creates; the latter carry [columns]. *)
Inductive StructuredDatasetClass :=
| StructuredDataset_class
| _TypedStructuredDataset (columns : list (string * ColumnType)).

Definition columns (cls : StructuredDatasetClass) : list (string * ColumnType) :=
  match cls with
  | StructuredDataset_class => []
  | _TypedStructuredDataset columns => columns
  end.

Definition column_names (cls : StructuredDatasetClass) : list string :=
  (columns cls).*1.

(** The subscript of [StructuredDataset[...]]: [None], a dict, or anything
    else. *)
Inductive Subscript :=
| subscript_None
| subscript_dict (columns : list (string * ColumnType))
| subscript_other.

Definition __class_getitem__ (cls : StructuredDatasetClass) (item : Subscript)
    : Result StructuredDatasetClass :=
  match item with
  | subscript_None => Returns cls
  | subscript_other => Raises AssertionError
  | subscript_dict columns =>
      if (List.length columns =? 0)%nat then Returns cls
      else Returns (_TypedStructuredDataset columns)
  end.

Record StructuredDataset := {
  class_of : StructuredDatasetClass;
  _dataframe : option DataObj;
  _local_path : option string;
  _remote_path : option string;
  _file_format : DatasetFormat;
  _downloaded : bool;
  _downloader : option Callable
}.

Definition __init__ (cls : StructuredDatasetClass) (dataframe : option DataObj)
    (local_path remote_path : option string) (file_format : DatasetFormat)
    (downloader : option Callable) : StructuredDataset :=
  {| class_of := cls; _dataframe := dataframe; _local_path := local_path;
     _remote_path := remote_path; _file_format := file_format;
     _downloaded := false; _downloader := downloader |}.

Definition dataframe (self : StructuredDataset) := _dataframe self.
Definition local_path (self : StructuredDataset) := _local_path self.
Definition remote_path (self : StructuredDataset) := _remote_path self.
Definition file_format (self : StructuredDataset) := _file_format self.

(** The Python value handed to [to_literal], and a declared type. *)
Inductive PyValue :=
| value_StructuredDataset (sd : StructuredDataset)
| value_dataframe (df : DataObj).

Inductive PyType :=
| type_StructuredDataset (cls : StructuredDatasetClass)
| type_class (name : string).

(** [type(df)] as a registry key; [pa.Table] is the intermediate format. *)
Definition pa_Table_key : TypeKey := key_class "pyarrow.Table".
Definition pd_DataFrame_key : TypeKey := key_class "pandas.DataFrame".

Definition type_of (df : DataObj) : TypeKey :=
  match df with
  | pa_Table _ _ => pa_Table_key
  | pd_DataFrame _ _ => pd_DataFrame_key
  | other_object class_name _ => key_class class_name
  end.

Definition _SUPPORTED_TYPES (t : ColumnType) : option LiteralType :=
  match t with
  | np_int32 | np_int64 | np_uint32 | np_uint64 | py_int
  | pa_int8 | pa_int16 | pa_int32 | pa_int64 => Some (LiteralType_simple INTEGER)
  | np_float32 | np_float64 | py_float
  | pa_float16 | pa_float32 | pa_float64 => Some (LiteralType_simple FLOAT)
  | np_bool_ | py_bool | pa_bool_ => Some (LiteralType_simple BOOLEAN)
  | np_datetime64 | datetime_datetime => Some (LiteralType_simple DATETIME)
  | np_timedelta64 | datetime_timedelta => Some (LiteralType_simple DURATION)
  | np_string_ | np_str_ | np_object_ | py_str | pa_string => Some (LiteralType_simple STRING)
  | _ => None
  end.

Fixpoint _get_dataset_column_literal_type (t : ColumnType) : Result LiteralType :=
  match _SUPPORTED_TYPES t with
  | Some lt => Returns lt
  | None =>
      match t with
      | typing_List arg =>
          lt ← _get_dataset_column_literal_type arg;
          Returns (LiteralType_collection_type lt)
      | typing_Dict _ value_arg =>
          lt ← _get_dataset_column_literal_type value_arg;
          Returns (LiteralType_map_value_type lt)
      | _ => Raises AssertionError
      end
  end.

(** The loop [for k, v in columns.items(): ... converted_cols.append(...)]. *)
Fixpoint converted_cols (items : list (string * ColumnType)) : Result (list DatasetColumn) :=
  match items with
  | [] => Returns []
  | (k, v) :: items' =>
      lt ← _get_dataset_column_literal_type v;
      rest ← converted_cols items';
      Returns (Build_DatasetColumn k lt :: rest)
  end.

Definition _get_dataset_type (t : PyType) : Result StructuredDatasetType :=
  match t with
  | type_StructuredDataset cls => converted_cols (columns cls)
  | type_class _ => Returns []
  end.

(** The comprehension over an Arrow schema; a missing key of
    [_SUPPORTED_TYPES] raises [KeyError]. *)
Fixpoint schema_cols (schema : list (string * ColumnType)) : Result (list DatasetColumn) :=
  match schema with
  | [] => Returns []
  | (s_name, s_type) :: schema' =>
      lt ← match _SUPPORTED_TYPES s_type with
           | Some lt => Returns lt
           | None => Raises KeyError
           end;
      rest ← schema_cols schema';
      Returns (Build_DatasetColumn s_name lt :: rest)
  end.

Definition _get_dataset_type_from_value (python_value : PyValue) : Result StructuredDatasetType :=
  match python_value with
  | value_dataframe (pa_Table schema _) => schema_cols schema
  | value_dataframe (pd_DataFrame schema _) => schema_cols schema
  | value_StructuredDataset sd => converted_cols (columns (class_of sd))
  | value_dataframe (other_object _ _) => Returns []
  end.

(** ** The handler registry *)

Definition set_REGISTER_TYPES (l : list TypeKey) (w : World) : World :=
  {| path_is_file := path_is_file w; minted := minted w; trace := trace w;
     _REGISTER_TYPES := l;
     DATASET_DECODING_HANDLERS := DATASET_DECODING_HANDLERS w;
     DATASET_ENCODING_HANDLERS := DATASET_ENCODING_HANDLERS w;
     DATASET_PERSISTENCE_HANDLERS := DATASET_PERSISTENCE_HANDLERS w;
     DATASET_RETRIEVAL_HANDLERS := DATASET_RETRIEVAL_HANDLERS w |}.

Inductive Registry := RETRIEVAL | PERSISTENCE | ENCODING | DECODING.

Definition get_registry (r : Registry) (w : World) : gmap TypeKey (gmap TypeKey Handler) :=
  match r with
  | RETRIEVAL => DATASET_RETRIEVAL_HANDLERS w
  | PERSISTENCE => DATASET_PERSISTENCE_HANDLERS w
  | ENCODING => DATASET_ENCODING_HANDLERS w
  | DECODING => DATASET_DECODING_HANDLERS w
  end.

Definition set_registry (r : Registry) (m : gmap TypeKey (gmap TypeKey Handler)) (w : World)
    : World :=
  {| path_is_file := path_is_file w; minted := minted w; trace := trace w;
     _REGISTER_TYPES := _REGISTER_TYPES w;
     DATASET_DECODING_HANDLERS :=
       match r with DECODING => m | _ => DATASET_DECODING_HANDLERS w end;
     DATASET_ENCODING_HANDLERS :=
       match r with ENCODING => m | _ => DATASET_ENCODING_HANDLERS w end;
     DATASET_PERSISTENCE_HANDLERS :=
       match r with PERSISTENCE => m | _ => DATASET_PERSISTENCE_HANDLERS w end;
     DATASET_RETRIEVAL_HANDLERS :=
       match r with RETRIEVAL => m | _ => DATASET_RETRIEVAL_HANDLERS w end |}.

(** Modelled from the spec: [TypeEngine.override_transformer(self, t)], of
    the outer type-dispatch system, routes [t] to this transformer; the type
    engine is not in these modules, and the call is recorded in the trace. *)
Definition override_transformer (t : TypeKey) : M unit :=
  emit (Ev_override_transformer t).

(** [if t not in self._REGISTER_TYPES: append; override_transformer] *)
Definition register_type (t : TypeKey) : M unit :=
  seen ← read (fun w => bool_decide (t ∈ _REGISTER_TYPES w));
  if seen : bool then mret tt
  else
    modify (fun w => set_REGISTER_TYPES (_REGISTER_TYPES w ++ [t]) w);;
    override_transformer t.

Definition register_handler (from_type to_type : TypeKey) (h : Handler) : M unit :=
  register_type from_type;;
  register_type to_type;;
  registry ←
    (if isinstance_DatasetRetrievalHandler h then mret RETRIEVAL
     else if isinstance_DatasetPersistenceHandler h then mret PERSISTENCE
     else if isinstance_DatasetEncodingHandler h then mret ENCODING
     else if isinstance_DatasetDecodingHandler h then mret DECODING
     else raise TypeError);
  modify (fun w =>
    let m := get_registry registry w in
    let m := match m !! from_type with
             | None => <[from_type := ∅]> m
             | Some _ => m
             end in
    let m := <[from_type := <[to_type := h]> (default ∅ (m !! from_type))]> m in
    set_registry registry m w).

Definition _get_intermediate_format : TypeKey := pa_Table_key.

Definition _get_handler (from_type to_type : TypeKey)
    (handler : gmap TypeKey (gmap TypeKey Handler)) : option Handler :=
  match handler !! from_type with
  | None => None
  | Some inner => inner !! to_type
  end.

(** Calls of the handler methods, recorded in the trace. *)
Definition retrieve (h : Handler) (path : string) : M DataObj :=
  emit (Ev_retrieve (handler_id h) path);; lift_result (retrieve_method h path).
Definition decode (h : Handler) (table : DataObj) : M DataObj :=
  emit (Ev_decode (handler_id h) table);; lift_result (decode_method h table).
Definition encode (h : Handler) (df : DataObj) : M DataObj :=
  emit (Ev_encode (handler_id h) df);; lift_result (encode_method h df).
Definition persist (h : Handler) (df : DataObj) (uri : string) : M unit :=
  emit (Ev_persist (handler_id h) df uri);; lift_result (persist_method h df uri).

(** A handler object is truthy (the handler classes define neither
    [__bool__] nor [__len__]): [if retrieve_handler:] tests for [None]. *)
Definition download (from_type to_type : TypeKey) (uri : string) : M DataObj :=
  retrieve_handler ← read (fun w => _get_handler from_type to_type (DATASET_RETRIEVAL_HANDLERS w));
  match retrieve_handler with
  | Some retrieve_handler => retrieve retrieve_handler uri
  | None =>
      retrieve_handler ← read (fun w =>
        _get_handler from_type _get_intermediate_format (DATASET_RETRIEVAL_HANDLERS w));
      decoding_handler ← read (fun w =>
        _get_handler _get_intermediate_format to_type (DATASET_DECODING_HANDLERS w));
      match retrieve_handler, decoding_handler with
      | Some retrieve_handler, Some decoding_handler =>
          table ← retrieve retrieve_handler uri;
          decode decoding_handler table
      | _, _ => raise ValueError
      end
  end.

Definition upload (from_type to_type : TypeKey) (uri : string) (df : DataObj) : M unit :=
  persist_handler ← read (fun w => _get_handler from_type to_type (DATASET_PERSISTENCE_HANDLERS w));
  match persist_handler with
  | Some persist_handler => persist persist_handler df uri
  | None =>
      encoding_handler ← read (fun w =>
        _get_handler from_type _get_intermediate_format (DATASET_ENCODING_HANDLERS w));
      persist_handler ← read (fun w =>
        _get_handler _get_intermediate_format to_type (DATASET_PERSISTENCE_HANDLERS w));
      match encoding_handler, persist_handler with
      | Some encoding_handler, Some persist_handler =>
          table ← encode encoding_handler df;
          persist persist_handler table uri
      | _, _ => raise NotImplementedError
      end
  end.

(** ** The transformer *)

Definition StructuredDataset_literal (uri : string) (format : string)
    (t : StructuredDatasetType) : Literal :=
  {| scalar := Scalar_structured_dataset
       {| sd_uri := uri;
          sd_metadata := {| sd_format := format; sd_structured_dataset_type := t |} |} |}.

Definition to_literal (ctx : FlyteContext) (python_val : PyValue) (python_type : PyType)
    (expected : LiteralType) : M Literal :=
  '(uri, file_format) ←
    match python_val with
    | value_StructuredDataset sd =>
        uri ← (if truthy (remote_path sd) then mret (default "" (remote_path sd))
               else get_random_remote_path ctx None);
        let df := dataframe sd in
        let file_format := file_format sd in
        (if truthy (local_path sd)
         then put_data ctx (default "" (local_path sd)) uri false
         else match df with
              | Some df => upload (type_of df) (key_format file_format) uri df
              | None => mret tt
              end);;
        mret (uri, file_format)
    | value_dataframe df =>
        uri ← get_random_remote_path ctx None;
        let file_format := PARQUET in
        upload (type_of df) (key_format file_format) uri df;;
        mret (uri, file_format)
    end;
  t ← lift_result (_get_dataset_type_from_value python_val);
  mret (StructuredDataset_literal uri (DatasetFormat_name file_format) t).

Definition to_python_value (ctx : FlyteContext) (lv : Literal) (expected_python_type : PyType)
    : M PyValue :=
  match scalar lv with
  | Scalar_structured_dataset sd =>
      fmt ← lift_result (value_of (sd_format (sd_metadata sd)));
      let uri := sd_uri sd in
      match expected_python_type with
      | type_StructuredDataset cls =>
          mret (value_StructuredDataset (__init__ cls None None (Some uri) fmt None))
      | type_class name =>
          df ← download (key_format fmt) (key_class name) uri;
          mret (value_dataframe df)
      end
  | _ => raise AttributeError
  end.

Definition get_literal_type (t : PyType) : Result LiteralType :=
  cols ← _get_dataset_type t;
  Returns (LiteralType_structured_dataset_type cols).

(** The loop of [guess_python_type] over the literal columns, filling the
    dict [columns]. *)
Fixpoint guess_columns (literal_columns : list DatasetColumn)
    (columns : list (string * ColumnType)) : Result (list (string * ColumnType)) :=
  match literal_columns with
  | [] => Returns columns
  | literal_column :: rest =>
      match simple (literal_type literal_column) with
      | Some INTEGER => guess_columns rest (dict_setitem (name literal_column) py_int columns)
      | Some FLOAT => guess_columns rest (dict_setitem (name literal_column) py_float columns)
      | Some STRING => guess_columns rest (dict_setitem (name literal_column) py_str columns)
      | Some DATETIME =>
          guess_columns rest (dict_setitem (name literal_column) datetime_datetime columns)
      | Some DURATION =>
          guess_columns rest (dict_setitem (name literal_column) datetime_timedelta columns)
      | Some BOOLEAN => guess_columns rest (dict_setitem (name literal_column) py_bool columns)
      | _ => Raises ValueError
      end
  end.

(** A [StructuredDatasetType] object is truthy whenever it is set. *)
Definition guess_python_type (literal_type : LiteralType) : Result StructuredDatasetClass :=
  match structured_dataset_type literal_type with
  | None => Raises ValueError
  | Some literal_columns =>
      columns ← guess_columns literal_columns [];
      __class_getitem__ StructuredDataset_class (subscript_dict columns)
  end.

End structured_dataset.

(** * Concrete collaborators, used to run the code on inputs *)

(** A storage collaborator whose remote paths are those of the docstring,
    whose [n]-th minted paths are [s3://raw-output/n] and [/tmp/flyte/n], and
    whose copies return. *)
Definition unary (n : nat) : string := String.concat "" (replicate n "i").

Definition example_file_access : FileAccessProvider :=
  {| fa_is_remote := is_remote_by_scheme;
     fa_random_remote_path := fun n _ => ("s3://raw-output/" ++ unary n)%string;
     fa_random_local_path := fun n _ => ("/tmp/flyte/" ++ unary n)%string;
     fa_put_data_outcome := fun _ _ => None;
     fa_get_data_outcome := fun _ _ => None |}.

Definition example_ctx : FlyteContext := {| file_access := example_file_access |}.

(** A freshly started process on a filesystem whose regular files are
    [files]: nothing minted, nothing called, nothing registered. *)
Definition initial_world (files : list string) : World :=
  {| path_is_file := fun p => bool_decide (p ∈ files);
     minted := 0;
     trace := [];
     _REGISTER_TYPES := [];
     DATASET_DECODING_HANDLERS := ∅;
     DATASET_ENCODING_HANDLERS := ∅;
     DATASET_PERSISTENCE_HANDLERS := ∅;
     DATASET_RETRIEVAL_HANDLERS := ∅ |}.

(** The calls to [TypeEngine.override_transformer] in a trace, and the
    callables invoked in it. *)
Definition overrides (t : list Event) : list TypeKey :=
  omap (fun ev => match ev with Ev_override_transformer k => Some k | _ => None end) t.

Definition invoked (t : list Event) : list CallableTag :=
  omap (fun ev => match ev with Ev_call c => Some c | _ => None end) t.

(** The world after the calls [evs] have been added to the trace. *)
Definition logged (evs : list Event) (w : World) : World :=
  set_trace (trace w ++ evs) w.

(** Handler objects: a retrieval handler that reads a one-column Arrow table
    whatever the path, a decoding handler that turns a table into a data
    frame, and an object that implements none of the four interfaces. *)
Definition no_method {A} : Result A := Raises AttributeError.

Definition example_retrieval_handler : Handler :=
  {| handler_id := 1;
     isinstance_DatasetRetrievalHandler := true;
     isinstance_DatasetPersistenceHandler := false;
     isinstance_DatasetEncodingHandler := false;
     isinstance_DatasetDecodingHandler := false;
     retrieve_method := fun _ => Returns (pa_Table [("a", pa_int64)] 7);
     persist_method := fun _ _ => no_method;
     encode_method := fun _ => no_method;
     decode_method := fun _ => no_method |}.

Definition example_decoding_handler : Handler :=
  {| handler_id := 2;
     isinstance_DatasetRetrievalHandler := false;
     isinstance_DatasetPersistenceHandler := false;
     isinstance_DatasetEncodingHandler := false;
     isinstance_DatasetDecodingHandler := true;
     retrieve_method := fun _ => no_method;
     persist_method := fun _ _ => no_method;
     encode_method := fun _ => no_method;
     decode_method := fun table =>
       match table with
       | pa_Table schema payload => Returns (pd_DataFrame schema payload)
       | _ => Raises TypeError
       end |}.

Definition not_a_handler : Handler :=
  {| handler_id := 3;
     isinstance_DatasetRetrievalHandler := false;
     isinstance_DatasetPersistenceHandler := false;
     isinstance_DatasetEncodingHandler := false;
     isinstance_DatasetDecodingHandler := false;
     retrieve_method := fun _ => no_method;
     persist_method := fun _ _ => no_method;
     encode_method := fun _ => no_method;
     decode_method := fun _ => no_method |}.

(** A persistence handler and an encoding handler that return. *)
Definition example_persistence_handler : Handler :=
  {| handler_id := 4;
     isinstance_DatasetRetrievalHandler := false;
     isinstance_DatasetPersistenceHandler := true;
     isinstance_DatasetEncodingHandler := false;
     isinstance_DatasetDecodingHandler := false;
     retrieve_method := fun _ => no_method;
     persist_method := fun _ _ => Returns tt;
     encode_method := fun _ => no_method;
     decode_method := fun _ => no_method |}.

Definition example_encoding_handler : Handler :=
  {| handler_id := 5;
     isinstance_DatasetRetrievalHandler := false;
     isinstance_DatasetPersistenceHandler := false;
     isinstance_DatasetEncodingHandler := true;
     isinstance_DatasetDecodingHandler := false;
     retrieve_method := fun _ => no_method;
     persist_method := fun _ _ => no_method;
     encode_method := fun df =>
       match df with
       | pd_DataFrame schema payload => Returns (pa_Table schema payload)
       | _ => Raises TypeError
       end;
     decode_method := fun _ => no_method |}.

(** Whether the [isinstance] chain of [register_handler] picks registry [r]
    for handler [h]: the first of retrieval, persistence, encoding and
    decoding that [h] is an instance of. *)
Definition selects (h : Handler) (r : structured_dataset.Registry) : bool :=
  match r with
  | structured_dataset.RETRIEVAL => isinstance_DatasetRetrievalHandler h
  | structured_dataset.PERSISTENCE =>
      negb (isinstance_DatasetRetrievalHandler h) && isinstance_DatasetPersistenceHandler h
  | structured_dataset.ENCODING =>
      negb (isinstance_DatasetRetrievalHandler h)
      && negb (isinstance_DatasetPersistenceHandler h)
      && isinstance_DatasetEncodingHandler h
  | structured_dataset.DECODING =>
      negb (isinstance_DatasetRetrievalHandler h)
      && negb (isinstance_DatasetPersistenceHandler h)
      && negb (isinstance_DatasetEncodingHandler h)
      && isinstance_DatasetDecodingHandler h
  end.

(** A run of [register_handler] calls, each caller going on after an
    exception, and the types those calls mention. *)
Definition registrations (calls : list (TypeKey * TypeKey * Handler)) (w : World) : World :=
  foldl (fun w call =>
           (structured_dataset.register_handler call.1.1 call.1.2 call.2 w).2) w calls.

Definition mentioned (calls : list (TypeKey * TypeKey * Handler)) : list TypeKey :=
  flat_map (fun call => [call.1.1; call.1.2]) calls.

(** The types one call [register_handler(from_type, to_type, _)] sees for the
    first time, given the types seen so far. *)
Definition newly_seen (seen : list TypeKey) (from_type to_type : TypeKey) : list TypeKey :=
  (if bool_decide (from_type ∈ seen) then [] else [from_type])
  ++ (if bool_decide (to_type ∈ from_type :: seen) then [] else [to_type]).

(** The six canonical column types, and the six simple kinds they map to. *)
Definition canonical (t : ColumnType) : bool :=
  match t with
  | py_int | py_float | py_str | py_bool | datetime_datetime | datetime_timedelta => true
  | _ => false
  end.

Definition invertible (t : LiteralType) : bool :=
  match simple t with
  | Some INTEGER | Some FLOAT | Some STRING | Some BOOLEAN | Some DATETIME | Some DURATION => true
  | _ => false
  end.

(** * Properties of the file transformer *)

Section FileTransformer.
Import file.

Ltac run :=
  unfold mbind, M_bind, mret, M_ret, raise, emit, read, modify, outcome,
    is_file, get_format; cbn.

(** ** Plain strings and paths *)

(** A plain string that is not an existing regular file is rejected before
    its remoteness is looked at. *)
Lemma to_literal_str_not_a_file ctx s cls expected w :
  path_is_file w s = false ->
  to_literal ctx (value_str s) (type_FlyteFile cls) expected w = (Raises ValueError, w).
Proof. intros Hf. unfold to_literal. run. rewrite Hf. reflexivity. Qed.

(** A remote string is passed through only when it also names an existing
    regular file. *)
Lemma to_literal_remote_str_existing_file ctx s cls expected w :
  path_is_file w s = true -> is_remote ctx s = true ->
  to_literal ctx (value_str s) (type_FlyteFile cls) expected w
  = (Returns (Blob_literal {| blob_type := _blob_type (extension cls) |} s), w).
Proof. intros Hf Hr. unfold to_literal. run. rewrite Hf. cbn. rewrite Hr. reflexivity. Qed.

(** C1, the code at a remote URI: encoding the plain string
    [s3://bucket/key] with declared type [FlyteFile], on a filesystem that
    holds no file of that name, raises [ValueError]; no Blob literal is
    returned (and nothing is copied).  The same happens to the shorthand
    [file:///tmp/local_file] of the docstring, although [/tmp/local_file] is
    an existing file. *)
Theorem to_literal_remote_str_raises :
  is_remote example_ctx "s3://bucket/key" = true
  /\ to_literal example_ctx (value_str "s3://bucket/key") (type_FlyteFile FlyteFile_class)
       (LiteralType_blob (_blob_type "")) (initial_world ["/tmp/local_file"])
     = (Raises ValueError, initial_world ["/tmp/local_file"])
  /\ is_remote example_ctx "file:///tmp/local_file" = true
  /\ to_literal example_ctx (value_str "file:///tmp/local_file")
       (type_FlyteFile FlyteFile_class)
       (LiteralType_blob (_blob_type "")) (initial_world ["/tmp/local_file"])
     = (Raises ValueError, initial_world ["/tmp/local_file"]).
Proof. repeat split. Qed.

(** C9: a plain string or [pathlib.Path] [p] that names an existing regular
    file and is not remote, encoded with a [FlyteFile] declared type, mints
    one remote path [uri] and makes exactly one call [put_data(p, uri)];
    when that call returns, the result is the Blob literal of [uri]. *)
Theorem to_literal_local_file_uploads ctx (python_val : PyValue) p cls expected w :
  python_val = value_str p \/ python_val = value_Path p ->
  path_is_file w p = true ->
  is_remote ctx p = false ->
  let uri := fa_random_remote_path (file_access ctx) (minted w) (Some p) in
  let r := to_literal ctx python_val (type_FlyteFile cls) expected w in
  r.2 = set_trace (trace w ++ [Ev_get_random_remote_path (Some p); Ev_put_data p uri false])
          (set_minted (S (minted w)) w)
  /\ (fa_put_data_outcome (file_access ctx) p uri = None ->
      r.1 = Returns (Blob_literal {| blob_type := _blob_type (extension cls) |} uri)).
Proof.
  intros Hv Hf Hr uri r. subst r uri.
  destruct Hv as [-> | ->]; unfold to_literal, get_random_remote_path, put_data; run;
    rewrite Hf; cbn; unfold is_remote in Hr; unfold is_remote; rewrite Hr; cbn;
    (destruct (fa_put_data_outcome _ _ _) eqn:Ho; cbn;
     [split; [rewrite <- app_assoc; reflexivity | discriminate]
     |split; [rewrite <- app_assoc; reflexivity | reflexivity]]).
Qed.

Lemma to_literal_local_file_uploads_witness :
  (to_literal example_ctx (value_str "/tmp/local_file") (type_FlyteFile FlyteFile_class)
     (LiteralType_blob (_blob_type "")) (initial_world ["/tmp/local_file"])).2
  = set_trace [Ev_get_random_remote_path (Some "/tmp/local_file");
               Ev_put_data "/tmp/local_file" "s3://raw-output/" false]
      (set_minted 1 (initial_world ["/tmp/local_file"]))
  /\ (to_literal example_ctx (value_str "/tmp/local_file") (type_FlyteFile FlyteFile_class)
       (LiteralType_blob (_blob_type "")) (initial_world ["/tmp/local_file"])).1
     = Returns (Blob_literal {| blob_type := _blob_type "" |} "s3://raw-output/").
Proof.
  destruct (to_literal_local_file_uploads example_ctx (value_str "/tmp/local_file")
              "/tmp/local_file" FlyteFile_class (LiteralType_blob (_blob_type ""))
              (initial_world ["/tmp/local_file"])) as [Hw Hr].
  - left; reflexivity.
  - reflexivity.
  - reflexivity.
  - split; [exact Hw | apply Hr; reflexivity].
Defined.

(** ** [FlyteFile] values with a remote source *)

(** For a [FlyteFile] value whose [_remote_source] is set and a declared type
    that is a [FlyteFile] class, [to_literal] returns the Blob literal of
    exactly that source and leaves the world as it was: no path is minted and
    nothing is copied, whatever the path, the remote destination or the
    remoteness of the path are. *)
Theorem to_literal_remote_source ctx f cls expected w remote_source :
  _remote_source f = Some remote_source ->
  to_literal ctx (value_FlyteFile f) (type_FlyteFile cls) expected w
  = (Returns (Blob_literal {| blob_type := _blob_type (extension cls) |} remote_source), w).
Proof. intros Hs. unfold to_literal. run. rewrite Hs. reflexivity. Qed.

Lemma to_literal_remote_source_witness :
  to_literal example_ctx
    (value_FlyteFile (set_remote_source (Some "s3://b/k")
                        (__init__ FlyteFile_class "/tmp/flyte/x" noop remote_path_None)))
    (type_FlyteFile (_SpecificFormatClass "csv")) (LiteralType_blob (_blob_type "csv"))
    (initial_world [])
  = (Returns (Blob_literal {| blob_type := _blob_type "csv" |} "s3://b/k"), initial_world []).
Proof. apply to_literal_remote_source. reflexivity. Defined.

(** The same does not hold for every declared type: with [os.PathLike]
    declared, computing the format raises before the value is looked at. *)
Lemma remote_source_any_declared_type_fails :
  ~ (forall ctx f t expected w remote_source,
       _remote_source f = Some remote_source ->
       exists meta, to_literal ctx (value_FlyteFile f) t expected w
                    = (Returns (Blob_literal meta remote_source), w)).
Proof.
  intros H.
  destruct (H example_ctx
              (set_remote_source (Some "s3://b/k")
                 (__init__ FlyteFile_class "/tmp/flyte/x" noop remote_path_None))
              type_os_PathLike (LiteralType_blob (_blob_type "")) (initial_world [])
              "s3://b/k" eq_refl) as [meta Hm].
  discriminate Hm.
Qed.

(** C3, the code at the plain path types: for a [FlyteFile] value whose
    remote source is [s3://b/k], encoded with [os.PathLike] or with
    [pathlib.Path] declared (the declared types that [to_literal] itself
    tests for further down), [to_literal] raises [AttributeError] where it
    computes the format, before it reaches the remote source; no Blob literal
    is returned. *)
Theorem to_literal_remote_source_plain_type_raises :
  let v := value_FlyteFile (set_remote_source (Some "s3://b/k")
             (__init__ FlyteFile_class "/tmp/flyte/x" noop remote_path_None)) in
  to_literal example_ctx v type_os_PathLike (LiteralType_blob (_blob_type ""))
    (initial_world [])
  = (Raises AttributeError, initial_world [])
  /\ to_literal example_ctx v type_pathlib_Path (LiteralType_blob (_blob_type ""))
       (initial_world [])
     = (Raises AttributeError, initial_world []).
Proof. intros v. split; reflexivity. Qed.

(** ** Decoding a remote Blob *)

(** What one call of a download action leaves in the trace. *)
Lemma call_invoked c w :
  invoked (trace (call c w).2) = invoked (trace w) ++ [tag_of c].
Proof.
  unfold invoked. destruct c as [|ctx uri lp|id [e|]]; unfold call, get_data; run;
    try destruct (fa_get_data_outcome _ _ _); cbn;
    rewrite ?omap_app; cbn; rewrite ?app_nil_r; reflexivity.
Qed.

Lemma call_downloader_closure ctx uri lp w :
  trace (call (downloader_closure ctx uri lp) w).2
  = trace w ++ [Ev_call (tag_downloader uri lp); Ev_get_data uri lp false].
Proof.
  unfold call, get_data. run.
  destruct (fa_get_data_outcome _ _ _); cbn; rewrite <- app_assoc; reflexivity.
Qed.

(** C5: decoding a Blob literal whose uri is remote, with a [FlyteFile]
    class expected, mints one local path and returns a [FlyteFile] whose path
    is that local path, whose remote source is the uri, whose [downloaded]
    flag is false, and whose download action is the closure that copies the
    uri to the local path with [get_data] (nothing is copied by the decoding
    itself).  Its class is [FlyteFile[expected_format]], the format taken
    from the expected type and not from the literal: the two classes have the
    same format tag whenever subscripting leaves the tag as it is. *)
Theorem to_python_value_remote ctx (b : Blob) cls w :
  is_remote ctx (blob_uri b) = true ->
  let uri := blob_uri b in
  let local_path := fa_random_local_path (file_access ctx) (minted w) uri in
  exists ff,
    to_python_value ctx {| scalar := Scalar_blob b |} (type_FlyteFile cls) w
    = (Returns (decoded_FlyteFile ff),
       set_trace (trace w ++ [Ev_get_random_local_path uri]) (set_minted (S (minted w)) w))
    /\ path ff = local_path
    /\ remote_source ff = Some uri
    /\ downloaded ff = false
    /\ _downloader ff = downloader_closure ctx uri local_path
    /\ (forall w1, trace (call (_downloader ff) w1).2
                   = trace w1 ++ [Ev_call (tag_downloader uri local_path);
                                  Ev_get_data uri local_path false])
    /\ class_of ff = __class_getitem__ FlyteFile_class (Some (extension cls))
    /\ (lstrip "." (lstrip "~" (strip (extension cls))) = extension cls ->
        extension (class_of ff) = extension cls).
Proof.
  intros Hr uri local_path. subst uri local_path.
  eexists. unfold to_python_value, get_random_local_path. cbn.
  unfold is_remote in Hr. unfold is_remote. rewrite Hr. run.
  split; [reflexivity|]. cbn.
  repeat split.
  - intros w1. apply call_downloader_closure.
  - intros Hn. rewrite Hn. destruct (extension cls) eqn:He; reflexivity.
Qed.

Lemma to_python_value_remote_witness :
  exists ff,
    to_python_value example_ctx
      {| scalar := Scalar_blob {| blob_metadata := {| blob_type := _blob_type "csv" |};
                                  blob_uri := "s3://b/k" |} |}
      (type_FlyteFile (_SpecificFormatClass "csv")) (initial_world [])
    = (Returns (decoded_FlyteFile ff),
       set_trace [Ev_get_random_local_path "s3://b/k"] (set_minted 1 (initial_world [])))
    /\ path ff = "/tmp/flyte/"
    /\ remote_source ff = Some "s3://b/k"
    /\ downloaded ff = false
    /\ extension (class_of ff) = "csv".
Proof.
  destruct (to_python_value_remote example_ctx
              {| blob_metadata := {| blob_type := _blob_type "csv" |}; blob_uri := "s3://b/k" |}
              (_SpecificFormatClass "csv") (initial_world []) eq_refl)
    as (ff & Hrun & Hp & Hs & Hd & _ & _ & _ & Hfmt).
  exists ff. repeat split; try assumption. apply Hfmt. reflexivity.
Defined.

(** ** Dereferencing *)

Lemma dereferences_downloaded n self w :
  _downloaded self = true ->
  dereferences n self w = (replicate n (Returns (_path self)), self, w).
Proof.
  intros Hd. induction n as [|n IH]; [reflexivity|].
  cbn. unfold __fspath__ at 1. rewrite Hd. cbn. rewrite IH. reflexivity.
Qed.

(** Whatever the download action does, a dereference that returns, returns
    the path, and the flag never goes back to false. *)
Lemma dereferences_path n : forall self w r,
  r ∈ (dereferences n self w).1.1 -> forall p, r = Returns p -> p = _path self.
Proof.
  induction n as [|n IH]; intros self w r; cbn.
  - intros Hin. inversion Hin.
  - destruct (__fspath__ self w) as [[r0 self'] w'] eqn:Hf.
    destruct (dereferences n self' w') as [[rs self''] w''] eqn:Hd. cbn.
    assert (Hp : _path self' = _path self /\ forall p, r0 = Returns p -> p = _path self).
    { unfold __fspath__ in Hf. destruct (_downloaded self); cbn in Hf.
      - inversion Hf; subst. split; [reflexivity|]. intros p Hp; inversion Hp; reflexivity.
      - destruct (call (_downloader self) w) as [[[]|e] w1]; inversion Hf; subst;
          split; try reflexivity; intros p Hp; inversion Hp; reflexivity. }
    destruct Hp as [Hp1 Hp2].
    intros Hin p ->. apply elem_of_cons in Hin as [<- | Hin].
    + apply Hp2. reflexivity.
    + rewrite <- Hp1. apply (IH self' w' (Returns p)); [rewrite Hd; exact Hin | reflexivity].
Qed.

Lemma dereferences_downloaded_stays n self w :
  _downloaded self = true -> _downloaded (dereferences n self w).1.2 = true.
Proof. intros Hd. rewrite dereferences_downloaded by exact Hd. exact Hd. Qed.

(** C6, as amended: on a [FlyteFile] that has not been downloaded and whose
    download action returns when called, [n] dereferences all return the
    path; for [n] at least 1 the object is left with the flag set and nothing
    else changed, and the world is left exactly as one call of the download
    action on the initial world leaves it: the action ran once, on the first
    dereference, and no later dereference did anything.  For [n = 0] nothing
    changes. *)
Theorem dereferences_download_once self w n :
  _downloaded self = false ->
  (forall w0, (call (_downloader self) w0).1 = Returns tt) ->
  (dereferences n self w).1.1 = replicate n (Returns (_path self))
  /\ (dereferences n self w).1.2 = (if (n =? 0)%nat then self else set_downloaded true self)
  /\ (dereferences n self w).2 = (if (n =? 0)%nat then w else (call (_downloader self) w).2)
  /\ _downloaded (dereferences n self w).1.2 = negb (n =? 0)%nat
  /\ invoked (trace (dereferences n self w).2)
     = invoked (trace w) ++ (if (n =? 0)%nat then [] else [tag_of (_downloader self)]).
Proof.
  intros Hd Hc. destruct n as [|n]; cbn.
  - rewrite app_nil_r. auto 10.
  - unfold __fspath__. rewrite Hd. cbn.
    pose proof (Hc w) as Hcw. pose proof (call_invoked (_downloader self) w) as Hi.
    destruct (call (_downloader self) w) as [[[]|e] w1]; cbn in Hcw, Hi; [|discriminate].
    rewrite (dereferences_downloaded n (set_downloaded true self) w1) by reflexivity.
    cbn. auto 10.
Qed.

(** C6 as stated, for every instance, fails: a download action that raises
    leaves the flag false, and the second dereference invokes it again. *)
Lemma download_action_invoked_again :
  ~ (forall self w n,
       _downloaded self = false -> (0 < n)%nat ->
       invoked (trace (dereferences n self w).2)
       = invoked (trace w) ++ [tag_of (_downloader self)]).
Proof.
  intros H.
  assert (Hn : (0 < 2)%nat) by lia.
  specialize (H (__init__ FlyteFile_class "/tmp/x"
                   (callable 9 (Some (CollaboratorError "io"))) remote_path_None)
                (initial_world []) 2 eq_refl Hn).
  vm_compute in H. discriminate H.
Qed.

(** Decoding [s3://b/k] and dereferencing the value twice copies once. *)
Example decode_then_dereference_twice :
  match to_python_value example_ctx
          {| scalar := Scalar_blob {| blob_metadata := {| blob_type := _blob_type "csv" |};
                                      blob_uri := "s3://b/k" |} |}
          (type_FlyteFile (_SpecificFormatClass "csv")) (initial_world []) with
  | (Returns (decoded_FlyteFile ff), w) =>
      trace (dereferences 2 ff w).2
      = [Ev_get_random_local_path "s3://b/k";
         Ev_call (tag_downloader "s3://b/k" "/tmp/flyte/");
         Ev_get_data "s3://b/k" "/tmp/flyte/" false]
  | _ => False
  end.
Proof. reflexivity. Qed.

Lemma dereferences_download_once_witness :
  let self := set_remote_source (Some "s3://b/k")
                (__init__ (_SpecificFormatClass "csv") "/tmp/flyte/"
                   (downloader_closure example_ctx "s3://b/k" "/tmp/flyte/") remote_path_None) in
  (dereferences 3 self (initial_world [])).1.1 = replicate 3 (Returns "/tmp/flyte/")
  /\ (dereferences 3 self (initial_world [])).1.2 = set_downloaded true self
  /\ (dereferences 3 self (initial_world [])).2
     = logged [Ev_call (tag_downloader "s3://b/k" "/tmp/flyte/");
               Ev_get_data "s3://b/k" "/tmp/flyte/" false] (initial_world [])
  /\ _downloaded (dereferences 3 self (initial_world [])).1.2 = true
  /\ invoked (trace (dereferences 3 self (initial_world [])).2)
     = [tag_downloader "s3://b/k" "/tmp/flyte/"].
Proof.
  intros self.
  apply (dereferences_download_once self (initial_world []) 3).
  - reflexivity.
  - intros w0. reflexivity.
Defined.
End FileTransformer.

(** * Properties of the structured dataset transformer *)

Section StructuredDatasetTransformer.
Import structured_dataset.

Ltac run :=
  unfold mbind, M_bind, mret, M_ret, raise, emit, read, modify, outcome, lift_result; cbn.

(** ** Registration *)

Lemma register_type_run t w :
  register_type t w
  = (Returns tt,
     if bool_decide (t ∈ _REGISTER_TYPES w) then w
     else logged [Ev_override_transformer t] (set_REGISTER_TYPES (_REGISTER_TYPES w ++ [t]) w)).
Proof. unfold register_type, override_transformer. run. case_bool_decide; reflexivity. Qed.

Lemma register_types_run from_type to_type w :
  let w2 := ((register_type from_type;; register_type to_type) w).2 in
  _REGISTER_TYPES w2 = _REGISTER_TYPES w ++ newly_seen (_REGISTER_TYPES w) from_type to_type
  /\ overrides (trace w2)
     = overrides (trace w) ++ newly_seen (_REGISTER_TYPES w) from_type to_type
  /\ (forall r, get_registry r w2 = get_registry r w).
Proof.
  unfold mbind, M_bind. rewrite (register_type_run from_type w).
  unfold newly_seen, overrides.
  destruct (bool_decide (from_type ∈ _REGISTER_TYPES w)) eqn:Hf.
  - rewrite register_type_run. cbn.
    apply bool_decide_eq_true in Hf.
    destruct (bool_decide (to_type ∈ _REGISTER_TYPES w)) eqn:Ht.
    + apply bool_decide_eq_true in Ht.
      rewrite bool_decide_eq_true_2 by (apply elem_of_cons; auto).
      cbn. rewrite !app_nil_r. split; [reflexivity|]. split; [reflexivity|]. intros []; reflexivity.
    + apply bool_decide_eq_false in Ht.
      rewrite bool_decide_eq_false_2
        by (intros [->|H]%elem_of_cons; [apply Ht, Hf | apply Ht, H]).
      cbn. rewrite omap_app. cbn. split; [reflexivity|]. split; [reflexivity|].
      intros []; reflexivity.
  - rewrite register_type_run. cbn.
    apply bool_decide_eq_false in Hf.
    destruct (bool_decide (to_type ∈ _REGISTER_TYPES w ++ [from_type])) eqn:Ht.
    + apply bool_decide_eq_true in Ht.
      rewrite bool_decide_eq_true_2
        by (apply elem_of_app in Ht as [H|H%list_elem_of_singleton];
            apply elem_of_cons; auto).
      cbn. rewrite omap_app. cbn. split; [reflexivity|]. split; [reflexivity|].
      intros []; reflexivity.
    + apply bool_decide_eq_false in Ht.
      rewrite bool_decide_eq_false_2
        by (intros [->|H]%elem_of_cons; apply Ht, elem_of_app;
            [right; apply list_elem_of_singleton; reflexivity | left; exact H]).
      cbn. rewrite !omap_app. cbn. rewrite <- !app_assoc. cbn.
      split; [reflexivity|]. split; [reflexivity|]. intros []; reflexivity.
Qed.

Lemma newly_seen_elem seen from_type to_type x :
  x ∈ newly_seen seen from_type to_type <-> (x = from_type \/ x = to_type) /\ x ∉ seen.
Proof.
  unfold newly_seen. rewrite elem_of_app.
  repeat case_bool_decide; rewrite ?elem_of_nil, ?list_elem_of_singleton;
    rewrite ?elem_of_cons in *; split; intros; destruct_and?; destruct_or?; subst;
    try tauto; try (split; [tauto|]; intros ?; tauto).
Qed.

Lemma newly_seen_NoDup seen from_type to_type : NoDup (newly_seen seen from_type to_type).
Proof.
  unfold newly_seen. repeat case_bool_decide; cbn; repeat constructor;
    rewrite ?elem_of_nil, ?list_elem_of_singleton; try tauto.
  intros ->. rewrite elem_of_cons in *. tauto.
Qed.

(** Whatever the handler is, a call leaves the seen types and the
    dispatcher overrides as the two membership tests left them. *)
Lemma register_handler_seen from_type to_type h w :
  let w' := (register_handler from_type to_type h w).2 in
  _REGISTER_TYPES w' = _REGISTER_TYPES w ++ newly_seen (_REGISTER_TYPES w) from_type to_type
  /\ overrides (trace w')
     = overrides (trace w) ++ newly_seen (_REGISTER_TYPES w) from_type to_type.
Proof.
  destruct (register_types_run from_type to_type w) as (H1 & H2 & _).
  cbn zeta in *. rewrite <- H1, <- H2. clear H1 H2.
  unfold register_handler, mbind, M_bind.
  destruct (register_type from_type w) as [[[]|e] w1]; [|split; reflexivity].
  destruct (register_type to_type w1) as [[[]|e] w2]; [|split; reflexivity].
  unfold mret, M_ret, raise, modify.
  destruct (isinstance_DatasetRetrievalHandler h); [split; reflexivity|].
  destruct (isinstance_DatasetPersistenceHandler h); [split; reflexivity|].
  destruct (isinstance_DatasetEncodingHandler h); [split; reflexivity|].
  destruct (isinstance_DatasetDecodingHandler h); split; reflexivity.
Qed.

(** C7: over any run of [register_handler] calls, from any state, the types
    added to [_REGISTER_TYPES] and the types passed to
    [TypeEngine.override_transformer] are one and the same list [new]; it has
    no repetition, and it holds exactly the types the calls mention that had
    not been seen before.  So a type not seen before is added and routed, and
    no type is routed twice or routed when it was already seen. *)
Theorem register_handler_routes_once calls w :
  exists new,
    _REGISTER_TYPES (registrations calls w) = _REGISTER_TYPES w ++ new
    /\ overrides (trace (registrations calls w)) = overrides (trace w) ++ new
    /\ NoDup new
    /\ (forall t, t ∈ new <-> t ∈ mentioned calls /\ t ∉ _REGISTER_TYPES w).
Proof.
  revert w. induction calls as [|[[from_type to_type] h] calls IH]; intros w.
  - exists []. cbn. rewrite !app_nil_r.
    split; [reflexivity|]. split; [reflexivity|]. split; [constructor|].
    intros t; split; [intros Hx; inversion Hx | intros [Hx _]; inversion Hx].
  - cbn [registrations foldl fst snd].
    destruct (register_handler_seen from_type to_type h w) as [Hs Ho]. cbn zeta in *.
    set (w1 := (register_handler from_type to_type h w).2) in *.
    destruct (IH w1) as (new1 & Hs1 & Ho1 & Hnd & Hin).
    fold (registrations calls w1).
    set (n0 := newly_seen (_REGISTER_TYPES w) from_type to_type) in *.
    exists (n0 ++ new1). rewrite Hs1, Ho1, Hs, Ho, <- !app_assoc.
    split; [reflexivity|]. split; [reflexivity|]. split.
    + apply NoDup_app. split; [apply newly_seen_NoDup|]. split; [|exact Hnd].
      intros x Hx Hx1. apply Hin in Hx1 as [_ Hx1]. apply Hx1.
      rewrite Hs. apply elem_of_app. right. exact Hx.
    + intros t. rewrite elem_of_app, Hin, Hs, elem_of_app. subst n0.
      rewrite newly_seen_elem.
      cbn [mentioned flat_map fst snd app]. rewrite !elem_of_cons.
      fold (mentioned calls).
      destruct (decide (t = from_type)); destruct (decide (t = to_type)); tauto.
Qed.

(** C10: a call with a handler that is an instance of none of the four
    handler classes raises [TypeError]; by then both types are in
    [_REGISTER_TYPES], the ones not seen before have been appended to it and
    passed to [TypeEngine.override_transformer], and that is how the world
    stays; the four registries are as they were. *)
Theorem register_handler_not_atomic from_type to_type h w :
  isinstance_DatasetRetrievalHandler h = false ->
  isinstance_DatasetPersistenceHandler h = false ->
  isinstance_DatasetEncodingHandler h = false ->
  isinstance_DatasetDecodingHandler h = false ->
  let r := register_handler from_type to_type h w in
  let new := newly_seen (_REGISTER_TYPES w) from_type to_type in
  r.1 = Raises TypeError
  /\ _REGISTER_TYPES r.2 = _REGISTER_TYPES w ++ new
  /\ overrides (trace r.2) = overrides (trace w) ++ new
  /\ from_type ∈ _REGISTER_TYPES r.2
  /\ to_type ∈ _REGISTER_TYPES r.2
  /\ (forall x, x ∈ new <-> (x = from_type \/ x = to_type) /\ x ∉ _REGISTER_TYPES w)
  /\ (forall reg, get_registry reg r.2 = get_registry reg w).
Proof.
  intros HR HP HE HD r new.
  destruct (register_handler_seen from_type to_type h w) as [Hs Ho]. cbn zeta in *.
  fold r in Hs, Ho. fold new in Hs, Ho.
  assert (Hmem : forall x, x = from_type \/ x = to_type -> x ∈ _REGISTER_TYPES r.2).
  { intros x Hx. rewrite Hs. apply elem_of_app.
    destruct (decide (x ∈ _REGISTER_TYPES w)); [left; assumption|].
    right. apply newly_seen_elem. auto. }
  split; [|split; [exact Hs|split; [exact Ho|split; [auto|split; [auto|split]]]]].
  - subst r. unfold register_handler, mbind, M_bind.
    rewrite (register_type_run from_type w). cbv beta iota.
    rewrite register_type_run. cbv beta iota.
    rewrite HR, HP, HE, HD. reflexivity.
  - intros x. apply newly_seen_elem.
  - destruct (register_types_run from_type to_type w) as (_ & _ & Hreg). cbn zeta in Hreg.
    intros reg. rewrite <- Hreg. subst r.
    unfold register_handler, mbind, M_bind.
    destruct (register_type from_type w) as [[[]|e] w1]; [|reflexivity].
    destruct (register_type to_type w1) as [[[]|e] w2]; [|reflexivity].
    rewrite HR, HP, HE, HD. reflexivity.
Qed.

Lemma register_handler_not_atomic_witness :
  let r := register_handler (key_format PARQUET) (key_class "pandas.DataFrame")
             not_a_handler (initial_world []) in
  r.1 = Raises TypeError
  /\ _REGISTER_TYPES r.2 = [key_format PARQUET; key_class "pandas.DataFrame"]
  /\ overrides (trace r.2) = [key_format PARQUET; key_class "pandas.DataFrame"].
Proof.
  intros r.
  destruct (register_handler_not_atomic (key_format PARQUET) (key_class "pandas.DataFrame")
              not_a_handler (initial_world []) eq_refl eq_refl eq_refl eq_refl)
    as (H1 & H2 & H3 & _).
  split; [exact H1|]. split; [exact H2|exact H3].
Defined.

(** ** Download *)

Lemma logged_neq ev evs w : logged (ev :: evs) w <> w.
Proof.
  intros H. apply (f_equal trace) in H. cbn in H.
  apply (f_equal List.length) in H. rewrite length_app in H. cbn in H. lia.
Qed.

Lemma lift_result_run {A} (r : Result A) w : lift_result r w = (r, w).
Proof. destruct r; reflexivity. Qed.

(** A retrieval handler that has been registered for a pair is the one the
    lookup for that pair finds. *)
Lemma register_handler_then_get from_type to_type h w :
  isinstance_DatasetRetrievalHandler h = true ->
  _get_handler from_type to_type
    (DATASET_RETRIEVAL_HANDLERS (register_handler from_type to_type h w).2) = Some h.
Proof.
  intros HR. unfold register_handler, mbind, M_bind.
  rewrite (register_type_run from_type w). cbv beta iota.
  rewrite register_type_run. cbv beta iota. rewrite HR.
  unfold mret, M_ret, modify, _get_handler. cbn.
  rewrite lookup_insert_eq. apply lookup_insert_eq.
Qed.

Lemma download_run from_type to_type uri w :
  download from_type to_type uri w
  = match _get_handler from_type to_type (DATASET_RETRIEVAL_HANDLERS w) with
    | Some h => retrieve h uri w
    | None =>
        match _get_handler from_type _get_intermediate_format (DATASET_RETRIEVAL_HANDLERS w),
              _get_handler _get_intermediate_format to_type (DATASET_DECODING_HANDLERS w) with
        | Some r, Some d => (table ← retrieve r uri; decode d table) w
        | _, _ => (Raises ValueError, w)
        end
    end.
Proof.
  unfold download, mbind, M_bind, read.
  destruct (_get_handler from_type to_type _); [reflexivity|].
  destruct (_get_handler from_type _get_intermediate_format _); [|reflexivity].
  destruct (_get_handler _get_intermediate_format to_type _); reflexivity.
Qed.

Lemma retrieve_run h uri w :
  retrieve h uri w = (retrieve_method h uri, logged [Ev_retrieve (handler_id h) uri] w).
Proof. unfold retrieve. run. apply lift_result_run. Qed.

Lemma decode_run h table w :
  decode h table w = (decode_method h table, logged [Ev_decode (handler_id h) table] w).
Proof. unfold decode. run. apply lift_result_run. Qed.

(** C4: [download] first looks for a retrieval handler registered for
    (from_type, to_type): when there is one, it is called once, with [uri],
    and what it returns or raises is the result.  When there is none and both
    a retrieval handler for (from_type, intermediate) and a decoding handler
    for (intermediate, to_type) are registered, the first is called with
    [uri] and the second with the table it returned.  [download] raises its
    own [ValueError], with no handler called, exactly when neither path is
    complete. *)
Theorem download_dispatch from_type to_type uri w :
  let direct := _get_handler from_type to_type (DATASET_RETRIEVAL_HANDLERS w) in
  let hop1 := _get_handler from_type _get_intermediate_format (DATASET_RETRIEVAL_HANDLERS w) in
  let hop2 := _get_handler _get_intermediate_format to_type (DATASET_DECODING_HANDLERS w) in
  (forall h, direct = Some h ->
     download from_type to_type uri w
     = (retrieve_method h uri, logged [Ev_retrieve (handler_id h) uri] w))
  /\ (forall r d, direct = None -> hop1 = Some r -> hop2 = Some d ->
      download from_type to_type uri w
      = match retrieve_method r uri with
        | Returns table =>
            (decode_method d table,
             logged [Ev_retrieve (handler_id r) uri; Ev_decode (handler_id d) table] w)
        | Raises e => (Raises e, logged [Ev_retrieve (handler_id r) uri] w)
        end)
  /\ (download from_type to_type uri w = (Raises ValueError, w)
      <-> direct = None /\ (hop1 = None \/ hop2 = None)).
Proof.
  intros direct hop1 hop2.
  assert (Hdirect : forall h, direct = Some h ->
     download from_type to_type uri w
     = (retrieve_method h uri, logged [Ev_retrieve (handler_id h) uri] w)).
  { intros h Hh. rewrite download_run. fold direct. rewrite Hh. apply retrieve_run. }
  assert (Hhops : forall r d, direct = None -> hop1 = Some r -> hop2 = Some d ->
      download from_type to_type uri w
      = match retrieve_method r uri with
        | Returns table =>
            (decode_method d table,
             logged [Ev_retrieve (handler_id r) uri; Ev_decode (handler_id d) table] w)
        | Raises e => (Raises e, logged [Ev_retrieve (handler_id r) uri] w)
        end).
  { intros r d Hn Hr Hd. rewrite download_run. fold direct hop1 hop2. rewrite Hn, Hr, Hd.
    unfold mbind, M_bind. rewrite retrieve_run.
    destruct (retrieve_method r uri) as [table|e]; [|reflexivity].
    rewrite decode_run. unfold logged. cbn. rewrite <- app_assoc. reflexivity. }
  split; [exact Hdirect|]. split; [exact Hhops|].
  split.
  - intros Hrun. destruct direct as [h|] eqn:Hd.
    + rewrite (Hdirect h eq_refl) in Hrun. apply (f_equal snd) in Hrun.
      exfalso. exact (logged_neq _ _ _ Hrun).
    + split; [reflexivity|].
      destruct hop1 as [r|] eqn:H1; [|left; reflexivity].
      destruct hop2 as [d|] eqn:H2; [|right; reflexivity].
      rewrite (Hhops r d eq_refl eq_refl eq_refl) in Hrun.
      exfalso. destruct (retrieve_method r uri); apply (f_equal snd) in Hrun;
        exact (logged_neq _ _ _ Hrun).
  - intros [Hn Hh]. rewrite download_run. fold direct hop1 hop2. rewrite Hn.
    destruct Hh as [Hh | Hh]; rewrite Hh; [reflexivity|]. destruct hop1; reflexivity.
Qed.

Lemma download_dispatch_witness :
  let w1 := (register_handler (key_format PARQUET) pa_Table_key example_retrieval_handler
               (initial_world [])).2 in
  let w2 := (register_handler pa_Table_key pd_DataFrame_key example_decoding_handler w1).2 in
  download (key_format PARQUET) pa_Table_key "s3://b/k" w2
  = (Returns (pa_Table [("a", pa_int64)] 7), logged [Ev_retrieve 1 "s3://b/k"] w2)
  /\ download (key_format PARQUET) pd_DataFrame_key "s3://b/k" w2
     = (Returns (pd_DataFrame [("a", pa_int64)] 7),
        logged [Ev_retrieve 1 "s3://b/k"; Ev_decode 2 (pa_Table [("a", pa_int64)] 7)] w2)
  /\ download (key_format BIGQUERY) pd_DataFrame_key "s3://b/k" w2 = (Raises ValueError, w2).
Proof.
  intros w1 w2. split; [|split].
  - destruct (download_dispatch (key_format PARQUET) pa_Table_key "s3://b/k" w2)
      as (H & _ & _).
    apply (H example_retrieval_handler). vm_compute. reflexivity.
  - destruct (download_dispatch (key_format PARQUET) pd_DataFrame_key "s3://b/k" w2)
      as (_ & H & _).
    apply (H example_retrieval_handler example_decoding_handler); vm_compute; reflexivity.
  - destruct (download_dispatch (key_format BIGQUERY) pd_DataFrame_key "s3://b/k" w2)
      as (_ & _ & H).
    apply H. split; [|left]; vm_compute; reflexivity.
Defined.

(** ** Guessing the Python type back *)

Lemma dict_setitem_fresh {V} k (v : V) d :
  k ∉ d.*1 -> dict_setitem k v d = d ++ [(k, v)].
Proof.
  induction d as [|[k' v'] d IH]; intros Hk; [reflexivity|].
  cbn in *. rewrite not_elem_of_cons in Hk. destruct Hk as [Hne Hk].
  destruct (String.eqb_spec k k') as [->|_]; [contradiction|].
  rewrite IH by exact Hk. reflexivity.
Qed.

(** Converting canonical columns and guessing them back appends them, in
    order, to the dict being filled. *)
Lemma guess_converted_cols cols : forall acc,
  Forall (fun c => canonical c.2 = true) cols ->
  NoDup (acc.*1 ++ cols.*1) ->
  exists literal_columns,
    converted_cols cols = Returns literal_columns
    /\ guess_columns literal_columns acc = Returns (acc ++ cols).
Proof.
  induction cols as [|[k v] cols IH]; intros acc Hc Hnd.
  - exists []. rewrite app_nil_r. split; reflexivity.
  - apply Forall_cons in Hc as [Hv Hc]. cbn in Hv, Hnd.
    assert (Hk : k ∉ acc.*1).
    { apply NoDup_app in Hnd as (_ & Hd & _). intros Hin. apply (Hd k Hin). left. }
    assert (Hnd' : NoDup ((acc ++ [(k, v)]).*1 ++ cols.*1)).
    { rewrite fmap_app. cbn. rewrite <- app_assoc. exact Hnd. }
    destruct (IH (acc ++ [(k, v)]) Hc Hnd') as (lcs & Hconv & Hguess).
    rewrite <- app_assoc in Hguess. cbn in Hguess.
    destruct v; try discriminate Hv; cbn; rewrite Hconv; cbn;
      eexists; (split; [reflexivity|]); cbn;
      rewrite (dict_setitem_fresh k _ acc Hk); exact Hguess.
Qed.

Lemma guess_columns_not_invertible literal_columns : forall acc c,
  c ∈ literal_columns -> invertible (literal_type c) = false ->
  guess_columns literal_columns acc = Raises ValueError.
Proof.
  induction literal_columns as [|a l IH]; intros acc c Hin Hc; [inversion Hin|].
  apply elem_of_cons in Hin. cbn. unfold invertible in Hc.
  destruct (simple (literal_type a)) as [[]|] eqn:Ha; try reflexivity;
    (destruct Hin as [-> | Hin]; [rewrite Ha in Hc; discriminate Hc | exact (IH _ c Hin Hc)]).
Qed.

(** C8: for a dict of columns (distinct names) whose types are among [int],
    [float], [str], [bool], [datetime.datetime] and [datetime.timedelta],
    guessing the Python type of the literal type of
    [StructuredDataset[columns]] returns a class with the same columns, in
    the same order; and guessing raises [ValueError] as soon as one column of
    a structured-dataset literal type has a literal type that is not one of
    the six simple kinds. *)
Theorem guess_python_type_round_trip :
  (forall cols : list (string * ColumnType),
     NoDup cols.*1 ->
     Forall (fun c => canonical c.2 = true) cols ->
     exists cls lt cls',
       __class_getitem__ StructuredDataset_class (subscript_dict cols) = Returns cls
       /\ get_literal_type (type_StructuredDataset cls) = Returns lt
       /\ guess_python_type lt = Returns cls'
       /\ columns cls' = cols)
  /\ (forall lt literal_columns c,
       structured_dataset_type lt = Some literal_columns ->
       c ∈ literal_columns ->
       invertible (literal_type c) = false ->
       guess_python_type lt = Raises ValueError).
Proof.
  split.
  - intros cols Hnd Hc.
    destruct (guess_converted_cols cols [] Hc Hnd) as (lcs & Hconv & Hguess).
    cbn in Hguess.
    assert (Hcls : exists cls,
      __class_getitem__ StructuredDataset_class (subscript_dict cols) = Returns cls
      /\ columns cls = cols).
    { destruct cols; cbn; eexists; split; reflexivity. }
    destruct Hcls as (cls & Hget & Hcols).
    exists cls, (LiteralType_structured_dataset_type lcs), cls.
    split; [exact Hget|]. split.
    + unfold get_literal_type, _get_dataset_type. rewrite Hcols, Hconv. reflexivity.
    + split; [|exact Hcols]. unfold guess_python_type. cbn. rewrite Hguess. cbn. exact Hget.
  - intros lt lcs c Hlt Hin Hc. unfold guess_python_type. rewrite Hlt.
    rewrite (guess_columns_not_invertible lcs [] c Hin Hc). reflexivity.
Qed.

Lemma guess_python_type_round_trip_witness :
  (exists cls lt cls',
     __class_getitem__ StructuredDataset_class
       (subscript_dict [("id", py_int); ("when", datetime_datetime); ("ok", py_bool)])
     = Returns cls
     /\ get_literal_type (type_StructuredDataset cls) = Returns lt
     /\ guess_python_type lt = Returns cls'
     /\ columns cls' = [("id", py_int); ("when", datetime_datetime); ("ok", py_bool)])
  /\ guess_python_type
       (LiteralType_structured_dataset_type
          [Build_DatasetColumn "id" (LiteralType_simple INTEGER);
           Build_DatasetColumn "tags" (LiteralType_collection_type (LiteralType_simple STRING))])
     = Raises ValueError.
Proof.
  destruct guess_python_type_round_trip as [Hround Hfail]. split.
  - apply Hround.
    + cbn. repeat constructor; rewrite ?elem_of_cons, ?elem_of_nil; intros H;
        destruct_or?; try discriminate; assumption.
    + repeat constructor.
  - eapply (Hfail _ _ (Build_DatasetColumn "tags"
                         (LiteralType_collection_type (LiteralType_simple STRING)))).
    + reflexivity.
    + right; left.
    + reflexivity.
Defined.

(** ** Encoding a value that carries no payload *)

Lemma converted_cols_raises items e :
  converted_cols items = Raises e -> e = AssertionError.
Proof.
  assert (Hcol : forall t e', _get_dataset_column_literal_type t = Raises e' ->
                              e' = AssertionError).
  { induction t; cbn; intros e' H; try discriminate H; try (inversion H; reflexivity).
    - destruct (_get_dataset_column_literal_type t); cbn in H; [discriminate|].
      inversion H; subst. apply IHt. reflexivity.
    - destruct (_get_dataset_column_literal_type t2); cbn in H; [discriminate|].
      inversion H; subst. apply IHt2. reflexivity. }
  induction items as [|[k v] items IH]; cbn; intros H; [discriminate|].
  destruct (_get_dataset_column_literal_type v) eqn:Hv; cbn in H.
  - destruct (converted_cols items); cbn in H; [discriminate|].
    inversion H; subst. apply IH. reflexivity.
  - inversion H; subst. exact (Hcol _ _ Hv).
Qed.

(** C2, as amended: for a [StructuredDataset] value with neither a dataframe
    nor a local path, [to_literal] copies nothing and calls no handler; it
    mints a remote path only when the value has no remote path of its own.
    When the declared column types are supported it returns the literal of
    that uri and of the value's format, and otherwise raises the
    [AssertionError] of the column type; the missing payload makes no
    failure. *)
Theorem to_literal_no_payload ctx sd python_type expected w :
  dataframe sd = None ->
  local_path sd = None ->
  let uri := if truthy (remote_path sd) then default "" (remote_path sd)
             else fa_random_remote_path (file_access ctx) (minted w) None in
  let w' := if truthy (remote_path sd) then w
            else logged [Ev_get_random_remote_path None] (set_minted (S (minted w)) w) in
  to_literal ctx (value_StructuredDataset sd) python_type expected w
  = (match converted_cols (columns (class_of sd)) with
     | Returns cols =>
         Returns (StructuredDataset_literal uri (DatasetFormat_name (file_format sd)) cols)
     | Raises e => Raises AssertionError
     end, w').
Proof.
  intros Hdf Hlp uri w'. subst uri w'.
  unfold to_literal, get_random_remote_path. rewrite Hdf, Hlp. run.
  destruct (truthy (remote_path sd)); run;
    destruct (converted_cols (columns (class_of sd))) as [cols|e] eqn:Hc; cbn;
    try reflexivity; rewrite (converted_cols_raises _ _ Hc); reflexivity.
Qed.

Lemma to_literal_no_payload_witness :
  to_literal example_ctx
    (value_StructuredDataset
       (__init__ StructuredDataset_class None None (Some "s3://bucket/data") PARQUET None))
    (type_StructuredDataset StructuredDataset_class)
    (LiteralType_structured_dataset_type []) (initial_world [])
  = (Returns (StructuredDataset_literal "s3://bucket/data" "PARQUET" []), initial_world []).
Proof.
  apply (to_literal_no_payload example_ctx
           (__init__ StructuredDataset_class None None (Some "s3://bucket/data") PARQUET None)
           (type_StructuredDataset StructuredDataset_class)
           (LiteralType_structured_dataset_type []) (initial_world [])); reflexivity.
Defined.

(** C2 as stated fails: a value that only carries a remote path, as
    [to_python_value] builds it, is encoded to a literal. *)
Lemma missing_payload_is_encoded :
  ~ (forall ctx sd python_type expected w,
       dataframe sd = None -> local_path sd = None ->
       exists e w', to_literal ctx (value_StructuredDataset sd) python_type expected w
                    = (Raises e, w')).
Proof.
  intros H.
  destruct (H example_ctx
              (__init__ StructuredDataset_class None None (Some "s3://bucket/data") PARQUET None)
              (type_StructuredDataset StructuredDataset_class)
              (LiteralType_structured_dataset_type []) (initial_world [])
              eq_refl eq_refl) as (e & w' & Hrun).
  discriminate Hrun.
Qed.
End StructuredDatasetTransformer.

(** * Further properties of the file transformer *)

Section FileTransformerMore.
Import file.

Ltac run :=
  unfold mbind, M_bind, mret, M_ret, raise, emit, read, modify, outcome,
    is_file, get_format; cbn.

(** ** Encoding [FlyteFile] values without a remote source *)

(** X1: a [FlyteFile] value with no remote source whose [remote_path] is
    [False], or whose path is remote, is never uploaded: with a [FlyteFile]
    declared type the literal carries the path itself and the world is left
    as it was. *)
Theorem to_literal_FlyteFile_not_uploaded ctx f cls expected w :
  _remote_source f = None ->
  remote_path f = remote_path_False \/ is_remote ctx (path f) = true ->
  to_literal ctx (value_FlyteFile f) (type_FlyteFile cls) expected w
  = (Returns (Blob_literal {| blob_type := _blob_type (extension cls) |} (path f)), w).
Proof.
  intros Hs Hskip. unfold to_literal. run. rewrite Hs. cbn.
  destruct Hskip as [Hrp | Hr].
  - rewrite Hrp. reflexivity.
  - rewrite Hr, orb_true_r. reflexivity.
Qed.

Lemma to_literal_FlyteFile_not_uploaded_witness :
  to_literal example_ctx
    (value_FlyteFile (__init__ FlyteFile_class "/tmp/local_file" noop remote_path_False))
    (type_FlyteFile FlyteFile_class) (LiteralType_blob (_blob_type "")) (initial_world [])
  = (Returns (Blob_literal {| blob_type := _blob_type "" |} "/tmp/local_file"),
     initial_world []).
Proof.
  apply to_literal_FlyteFile_not_uploaded; [reflexivity | left; reflexivity].
Defined.

(** X2: a [FlyteFile] value with no remote source, a local path and a
    non-empty [remote_path] string is copied to exactly that destination: one
    [put_data(path, remote_path)] call, no path minted, and, when the copy
    returns, the literal of the destination.  The path is not checked to be
    an existing file. *)
Theorem to_literal_FlyteFile_explicit_destination ctx f dest cls expected w :
  _remote_source f = None ->
  remote_path f = remote_path_str dest ->
  dest <> "" ->
  is_remote ctx (path f) = false ->
  let r := to_literal ctx (value_FlyteFile f) (type_FlyteFile cls) expected w in
  r.2 = logged [Ev_put_data (path f) dest false] w
  /\ (fa_put_data_outcome (file_access ctx) (path f) dest = None ->
      r.1 = Returns (Blob_literal {| blob_type := _blob_type (extension cls) |} dest)).
Proof.
  intros Hs Hrp Hd Hr r. subst r. unfold to_literal, put_data. run.
  rewrite Hs. cbn. rewrite Hrp, Hr. cbn.
  destruct dest as [|c dest]; [contradiction|]. cbn.
  destruct (fa_put_data_outcome _ _ _); cbn; split; try reflexivity; discriminate.
Qed.

Lemma to_literal_FlyteFile_explicit_destination_witness :
  let r := to_literal example_ctx
             (value_FlyteFile (__init__ FlyteFile_class "/tmp/local_file" noop
                                 (remote_path_str "s3://other-bucket/path")))
             (type_FlyteFile FlyteFile_class) (LiteralType_blob (_blob_type ""))
             (initial_world []) in
  r.2 = logged [Ev_put_data "/tmp/local_file" "s3://other-bucket/path" false] (initial_world [])
  /\ r.1 = Returns (Blob_literal {| blob_type := _blob_type "" |} "s3://other-bucket/path").
Proof.
  intros r.
  destruct (to_literal_FlyteFile_explicit_destination example_ctx
              (__init__ FlyteFile_class "/tmp/local_file" noop
                 (remote_path_str "s3://other-bucket/path"))
              "s3://other-bucket/path" FlyteFile_class (LiteralType_blob (_blob_type ""))
              (initial_world [])) as [Hw Hr]; try reflexivity.
  - discriminate.
  - split; [exact Hw | apply Hr; reflexivity].
Defined.

(** X3: a [FlyteFile] value with no remote source, a local path and no
    destination ([remote_path] is [None] or the empty string) is copied to a
    freshly minted remote path: one [get_random_remote_path(path)] call, one
    [put_data(path, uri)] call and, when the copy returns, the literal of
    [uri]. *)
Theorem to_literal_FlyteFile_minted_destination ctx f cls expected w :
  _remote_source f = None ->
  remote_path f = remote_path_None \/ remote_path f = remote_path_str "" ->
  is_remote ctx (path f) = false ->
  let uri := fa_random_remote_path (file_access ctx) (minted w) (Some (path f)) in
  let r := to_literal ctx (value_FlyteFile f) (type_FlyteFile cls) expected w in
  r.2 = logged [Ev_get_random_remote_path (Some (path f)); Ev_put_data (path f) uri false]
          (set_minted (S (minted w)) w)
  /\ (fa_put_data_outcome (file_access ctx) (path f) uri = None ->
      r.1 = Returns (Blob_literal {| blob_type := _blob_type (extension cls) |} uri)).
Proof.
  intros Hs Hrp Hr uri r. subst r uri.
  unfold to_literal, put_data, get_random_remote_path. run.
  rewrite Hs. cbn. rewrite Hr.
  destruct Hrp as [Hrp | Hrp]; rewrite Hrp; cbn;
    (destruct (fa_put_data_outcome _ _ _); cbn; unfold logged; cbn;
     rewrite <- app_assoc; split; try reflexivity; discriminate).
Qed.

Lemma to_literal_FlyteFile_minted_destination_witness :
  let r := to_literal example_ctx
             (value_FlyteFile (__init__ FlyteFile_class "/tmp/local_file" noop remote_path_None))
             (type_FlyteFile FlyteFile_class) (LiteralType_blob (_blob_type ""))
             (initial_world []) in
  r.2 = logged [Ev_get_random_remote_path (Some "/tmp/local_file");
                Ev_put_data "/tmp/local_file" "s3://raw-output/" false]
          (set_minted 1 (initial_world []))
  /\ r.1 = Returns (Blob_literal {| blob_type := _blob_type "" |} "s3://raw-output/").
Proof.
  intros r.
  destruct (to_literal_FlyteFile_minted_destination example_ctx
              (__init__ FlyteFile_class "/tmp/local_file" noop remote_path_None)
              FlyteFile_class (LiteralType_blob (_blob_type "")) (initial_world []))
    as [Hw Hr]; try reflexivity.
  - left; reflexivity.
  - split; [exact Hw | apply Hr; reflexivity].
Defined.




(** ** Failures of [to_literal] *)





(** X6: whenever [to_literal] returns, what it returns is a Blob literal
    whose metadata is the blob type that [get_literal_type] gives for the
    declared type: the format of the declared class and the SINGLE
    dimensionality, whatever the value was. *)
Theorem to_literal_metadata ctx v cls expected w lit :
  (to_literal ctx v (type_FlyteFile cls) expected w).1 = Returns lit ->
  exists uri,
    lit = Blob_literal {| blob_type := {| format := extension cls; dimensionality := SINGLE |} |}
            uri
    /\ get_literal_type (type_FlyteFile cls) w
       = (Returns (LiteralType_blob {| format := extension cls; dimensionality := SINGLE |}), w).
Proof.
  intros Hr.
  assert (Hlit : exists uri,
    lit = Blob_literal {| blob_type := _blob_type (extension cls) |} uri).
  { revert Hr. destruct v as [|f|p|s|c]; unfold to_literal, put_data, get_random_remote_path; run.
    - discriminate.
    - destruct (_remote_source f); cbn; [intros H; inversion H; eauto|].
      destruct (is_False (remote_path f) || is_remote ctx (path f)); cbn;
        [intros H; inversion H; eauto|].
      destruct (remote_path_or_None (remote_path f)); cbn;
        destruct (fa_put_data_outcome _ _ _); cbn; intros H; inversion H; eauto.
    - destruct (path_is_file w p); cbn; [|discriminate].
      destruct (is_remote ctx p); cbn; [intros H; inversion H; eauto|].
      destruct (fa_put_data_outcome _ _ _); cbn; intros H; inversion H; eauto.
    - destruct (path_is_file w s); cbn; [|discriminate].
      destruct (is_remote ctx s); cbn; [intros H; inversion H; eauto|].
      destruct (fa_put_data_outcome _ _ _); cbn; intros H; inversion H; eauto.
    - discriminate. }
  destruct Hlit as [uri ->]. exists uri. split; reflexivity.
Qed.

Lemma to_literal_metadata_witness :
  exists uri,
    Blob_literal {| blob_type := _blob_type "csv" |} "s3://raw-output/"
    = Blob_literal {| blob_type := {| format := "csv"; dimensionality := SINGLE |} |} uri
    /\ get_literal_type (type_FlyteFile (_SpecificFormatClass "csv"))
         (initial_world ["/tmp/local_file"])
       = (Returns (LiteralType_blob {| format := "csv"; dimensionality := SINGLE |}),
          initial_world ["/tmp/local_file"]).
Proof.
  apply (to_literal_metadata example_ctx (value_str "/tmp/local_file")
           (_SpecificFormatClass "csv") (LiteralType_blob (_blob_type "csv"))
           (initial_world ["/tmp/local_file"])).
  reflexivity.
Defined.

(** ** Decoding *)

(** X7: decoding is lazy.  [to_python_value] never copies anything: the only
    call it ever makes is [get_random_local_path(uri)], and it makes it
    exactly when a [FlyteFile] class is expected and the uri is remote. *)
Theorem to_python_value_trace ctx lv t w :
  trace (to_python_value ctx lv t w).2
  = trace w ++ match scalar lv with
               | Scalar_blob b =>
                   if issubclass_FlyteFile t && is_remote ctx (blob_uri b)
                   then [Ev_get_random_local_path (blob_uri b)] else []
               | _ => []
               end.
Proof.
  unfold to_python_value, get_random_local_path, construct.
  destruct (scalar lv) as [b|sd]; [|cbn; rewrite app_nil_r; reflexivity].
  destruct t as [cls| | |c]; cbn; try (rewrite app_nil_r; reflexivity).
  destruct (is_remote ctx (blob_uri b)); cbn; [reflexivity|].
  rewrite app_nil_r; reflexivity.
Qed.

(** X8: decoding a Blob whose uri is not remote, with a [FlyteFile] class
    expected, returns an instance of that very class on the uri itself, with
    no remote source, and leaves the world as it was.  The value has no
    download action: [trigger_download] raises [ValueError], and
    dereferencing it copies nothing. *)
Theorem to_python_value_local ctx (b : Blob) cls w :
  is_remote ctx (blob_uri b) = false ->
  exists ff,
    to_python_value ctx {| scalar := Scalar_blob b |} (type_FlyteFile cls) w
    = (Returns (decoded_FlyteFile ff), w)
    /\ class_of ff = cls
    /\ path ff = blob_uri b
    /\ remote_source ff = None
    /\ downloaded ff = false
    /\ (forall w1, trigger_download ff w1 = (Raises ValueError, w1))
    /\ (forall w1, __fspath__ ff w1
                   = (Returns (blob_uri b), set_downloaded true ff,
                      logged [Ev_call tag_noop] w1)).
Proof.
  intros Hr. exists (__init__ cls (blob_uri b) noop remote_path_None).
  unfold to_python_value. cbn. rewrite Hr. cbn. repeat split.
Qed.

Lemma to_python_value_local_witness :
  exists ff,
    to_python_value example_ctx
      {| scalar := Scalar_blob {| blob_metadata := {| blob_type := _blob_type "" |};
                                  blob_uri := "/usr/local/my_file" |} |}
      (type_FlyteFile FlyteFile_class) (initial_world [])
    = (Returns (decoded_FlyteFile ff), initial_world [])
    /\ path ff = "/usr/local/my_file"
    /\ trigger_download ff (initial_world []) = (Raises ValueError, initial_world []).
Proof.
  destruct (to_python_value_local example_ctx
              {| blob_metadata := {| blob_type := _blob_type "" |};
                 blob_uri := "/usr/local/my_file" |}
              FlyteFile_class (initial_world []) eq_refl)
    as (ff & Hrun & _ & Hp & _ & _ & Ht & _).
  exists ff. split; [exact Hrun|]. split; [exact Hp | apply Ht].
Defined.

(** ** Dereferencing and the other fields *)

Lemma __fspath___fields self w :
  let self' := (__fspath__ self w).1.2 in
  class_of self' = class_of self /\ _path self' = _path self
  /\ _downloader self' = _downloader self /\ _remote_path self' = _remote_path self
  /\ _remote_source self' = _remote_source self.
Proof.
  unfold __fspath__. destruct (_downloaded self); cbn; [auto 10|].
  destruct (call (_downloader self) w) as [[[]|e] w']; cbn; auto 10.
Qed.

Lemma dereferences_fields n : forall self w,
  let self' := (dereferences n self w).1.2 in
  class_of self' = class_of self /\ _path self' = _path self
  /\ _downloader self' = _downloader self /\ _remote_path self' = _remote_path self
  /\ _remote_source self' = _remote_source self.
Proof.
  induction n as [|n IH]; intros self w; cbn; [auto 10|].
  pose proof (__fspath___fields self w) as Hf. cbn zeta in Hf.
  destruct (__fspath__ self w) as [[r self1] w1]. cbn in Hf.
  pose proof (IH self1 w1) as Hd. cbn zeta in Hd.
  destruct (dereferences n self1 w1) as [[rs self2] w2]. cbn in *.
  destruct Hf as (? & ? & ? & ? & ?), Hd as (? & ? & ? & ? & ?).
  repeat split; congruence.
Qed.

(** X9: a decoded remote file goes back to the literal it came from.  After
    decoding a Blob with a remote uri, and after any number of dereferences
    of the value, [to_literal] returns the Blob literal of the same uri and
    makes no call at all: the downloaded local copy is never uploaded. *)
Theorem decode_encode_round_trip ctx (b : Blob) cls w :
  is_remote ctx (blob_uri b) = true ->
  exists ff w1,
    to_python_value ctx {| scalar := Scalar_blob b |} (type_FlyteFile cls) w
    = (Returns (decoded_FlyteFile ff), w1)
    /\ forall n w2 cls' expected,
        let ff' := (dereferences n ff w2).1.2 in
        let w3 := (dereferences n ff w2).2 in
        to_literal ctx (value_FlyteFile ff') (type_FlyteFile cls') expected w3
        = (Returns (Blob_literal {| blob_type := _blob_type (extension cls') |} (blob_uri b)),
           w3).
Proof.
  intros Hr. unfold to_python_value, get_random_local_path. cbn.
  unfold is_remote in *. rewrite Hr. run.
  eexists _, _. split; [reflexivity|].
  intros n w2 cls' expected.
  pose proof (dereferences_fields n
    (set_remote_source (Some (blob_uri b))
       (__init__ (__class_getitem__ FlyteFile_class (Some (extension cls)))
          (fa_random_local_path (file_access ctx) (minted w) (blob_uri b))
          (downloader_closure ctx (blob_uri b)
             (fa_random_local_path (file_access ctx) (minted w) (blob_uri b)))
          remote_path_None)) w2) as (_ & _ & _ & _ & Hs).
  cbn in Hs.
  unfold to_literal. run. rewrite Hs. reflexivity.
Qed.

Lemma decode_encode_round_trip_witness :
  exists ff w1,
    to_python_value example_ctx
      {| scalar := Scalar_blob {| blob_metadata := {| blob_type := _blob_type "csv" |};
                                  blob_uri := "s3://b/k" |} |}
      (type_FlyteFile (_SpecificFormatClass "csv")) (initial_world [])
    = (Returns (decoded_FlyteFile ff), w1)
    /\ to_literal example_ctx (value_FlyteFile ff) (type_FlyteFile (_SpecificFormatClass "csv"))
         (LiteralType_blob (_blob_type "csv")) w1
       = (Returns (Blob_literal {| blob_type := _blob_type "csv" |} "s3://b/k"), w1).
Proof.
  destruct (decode_encode_round_trip example_ctx
              {| blob_metadata := {| blob_type := _blob_type "csv" |}; blob_uri := "s3://b/k" |}
              (_SpecificFormatClass "csv") (initial_world []) eq_refl)
    as (ff & w1 & Hdec & Henc).
  exists ff, w1. split; [exact Hdec|].
  exact (Henc 0 w1 (_SpecificFormatClass "csv") (LiteralType_blob (_blob_type "csv"))).
Defined.

(** X10: upload, decode, open.  A local file [p] encoded with a [FlyteFile]
    class is copied to a minted [uri]; when that uri is remote, decoding the
    literal gives a value whose first dereference copies [uri] to a minted
    local path and returns that path.  In all: one [put_data(p, uri)] and one
    [get_data(uri, local)]. *)
Theorem encode_decode_dereference ctx p cls expected w :
  path_is_file w p = true ->
  is_remote ctx p = false ->
  let uri := fa_random_remote_path (file_access ctx) (minted w) (Some p) in
  let local := fa_random_local_path (file_access ctx) (S (minted w)) uri in
  fa_put_data_outcome (file_access ctx) p uri = None ->
  is_remote ctx uri = true ->
  fa_get_data_outcome (file_access ctx) uri local = None ->
  exists lit w1 ff w2,
    to_literal ctx (value_str p) (type_FlyteFile cls) expected w = (Returns lit, w1)
    /\ to_python_value ctx lit (type_FlyteFile cls) w1 = (Returns (decoded_FlyteFile ff), w2)
    /\ (__fspath__ ff w2).1.1 = Returns local
    /\ _downloaded (__fspath__ ff w2).1.2 = true
    /\ trace (__fspath__ ff w2).2
       = trace w ++ [Ev_get_random_remote_path (Some p); Ev_put_data p uri false;
                     Ev_get_random_local_path uri;
                     Ev_call (tag_downloader uri local); Ev_get_data uri local false].
Proof.
  intros Hf Hr uri local Hput Hru Hget. subst local uri. unfold is_remote in *.
  do 4 eexists. split; [|split].
  - unfold to_literal, put_data, get_random_remote_path. run.
    rewrite Hf. cbn. unfold is_remote. rewrite Hr. cbn. rewrite Hput. reflexivity.
  - unfold to_python_value, get_random_local_path. cbn.
    unfold is_remote. rewrite Hru. run. reflexivity.
  - unfold __fspath__, call, get_data. run. rewrite Hget. cbn.
    split; [reflexivity|]. split; [reflexivity|].
    rewrite <- !app_assoc. reflexivity.
Qed.

Lemma encode_decode_dereference_witness :
  exists lit w1 ff w2,
    to_literal example_ctx (value_str "/tmp/local_file") (type_FlyteFile FlyteFile_class)
      (LiteralType_blob (_blob_type "")) (initial_world ["/tmp/local_file"])
    = (Returns lit, w1)
    /\ to_python_value example_ctx lit (type_FlyteFile FlyteFile_class) w1
       = (Returns (decoded_FlyteFile ff), w2)
    /\ (__fspath__ ff w2).1.1 = Returns "/tmp/flyte/i"
    /\ _downloaded (__fspath__ ff w2).1.2 = true
    /\ trace (__fspath__ ff w2).2
       = [Ev_get_random_remote_path (Some "/tmp/local_file");
          Ev_put_data "/tmp/local_file" "s3://raw-output/" false;
          Ev_get_random_local_path "s3://raw-output/";
          Ev_call (tag_downloader "s3://raw-output/" "/tmp/flyte/i");
          Ev_get_data "s3://raw-output/" "/tmp/flyte/i" false].
Proof.
  apply (encode_decode_dereference example_ctx "/tmp/local_file" FlyteFile_class
           (LiteralType_blob (_blob_type "")) (initial_world ["/tmp/local_file"]));
    reflexivity.
Defined.

(** ** The download action *)



(** X12: a download action that raises is run again by every dereference:
    the exception reaches each caller, the file stays not downloaded, and [n]
    dereferences make [n] invocations. *)
Theorem dereferences_retry self e n : forall w,
  _downloaded self = false ->
  (forall w0, (call (_downloader self) w0).1 = Raises e) ->
  (dereferences n self w).1.1 = replicate n (Raises e)
  /\ (dereferences n self w).1.2 = self
  /\ invoked (trace (dereferences n self w).2)
     = invoked (trace w) ++ replicate n (tag_of (_downloader self)).
Proof.
  induction n as [|n IH]; intros w Hd Hc; cbn.
  - rewrite app_nil_r. auto.
  - unfold __fspath__ at 1 2 3. rewrite Hd. cbn.
    pose proof (Hc w) as Hcw. pose proof (call_invoked (_downloader self) w) as Hi.
    destruct (call (_downloader self) w) as [[[]|e'] w1]; cbn in Hcw, Hi; [discriminate|].
    inversion Hcw; subst e'.
    destruct (IH w1 Hd Hc) as (H1 & H2 & H3).
    destruct (dereferences n self w1) as [[rs self'] w2]. cbn in *.
    rewrite H1, H2, H3, Hi, <- app_assoc. auto.
Qed.

Lemma dereferences_retry_witness :
  let self := __init__ FlyteFile_class "/tmp/x" (callable 9 (Some (CollaboratorError "io")))
                remote_path_None in
  (dereferences 2 self (initial_world [])).1.1
  = [Raises (CollaboratorError "io"); Raises (CollaboratorError "io")]
  /\ (dereferences 2 self (initial_world [])).1.2 = self
  /\ invoked (trace (dereferences 2 self (initial_world [])).2) = [tag_callable 9; tag_callable 9].
Proof.
  intros self.
  apply (dereferences_retry self (CollaboratorError "io") 2 (initial_world [])).
  - reflexivity.
  - intros w0. reflexivity.
Defined.

(** ** Classes and equality *)

Lemma lstrip_while_head p s c s' :
  lstrip_while p s = String c s' -> p c = false.
Proof.
  induction s as [|a s IH]; cbn; [discriminate|].
  destruct (p a) eqn:Hp; [exact IH|]. intros H; inversion H; subst. exact Hp.
Qed.

(** X13: the format tag of [FlyteFile[item]] never starts with a dot, and
    [FlyteFile[item]] is [FlyteFile] itself exactly when the tag is empty
    ([item] is [None], or nothing is left of it once stripped). *)
Theorem __class_getitem___tag item :
  let cls := __class_getitem__ FlyteFile_class item in
  (forall s, extension cls <> String "." s)
  /\ (cls = FlyteFile_class <-> extension cls = "").
Proof.
  unfold __class_getitem__. destruct item as [item|]; cbn.
  - destruct (lstrip "." (lstrip "~" (strip item))) as [|c s'] eqn:Hl; cbn.
    + split; [discriminate|tauto].
    + split.
      * intros s Hs. inversion Hs; subst.
        apply lstrip_while_head in Hl. discriminate Hl.
      * split; discriminate.
  - split; [discriminate|tauto].
Qed.

Lemma __class_getitem___tag_witness :
  extension (__class_getitem__ FlyteFile_class (Some " ..csv ")) = "csv"
  /\ __class_getitem__ FlyteFile_class (Some ".~csv") <> FlyteFile_class
  /\ __class_getitem__ FlyteFile_class (Some " ~.") = FlyteFile_class.
Proof.
  split; [reflexivity|]. split.
  - intros H.
    destruct (__class_getitem___tag (Some ".~csv")) as [_ [Hbase _]].
    specialize (Hbase H). discriminate Hbase.
  - apply (__class_getitem___tag (Some " ~.")). reflexivity.
Defined.

(** X14: nothing but the [downloaded] flag changes when a file is
    dereferenced, so what a [FlyteFile] is equal to never changes: after any
    number of dereferences it compares with any value as it did before, and
    any [FlyteFile] compares with it as it did before. *)
Theorem dereferences_preserve_eq n self w :
  let self' := (dereferences n self w).1.2 in
  (forall other, __eq__ self' other = __eq__ self other)
  /\ (forall g, __eq__ g (value_FlyteFile self') = __eq__ g (value_FlyteFile self))
  /\ __eq__ self' (value_FlyteFile self) = true.
Proof.
  pose proof (dereferences_fields n self w) as (Hc & Hp & _ & Hr & _).
  cbn zeta in *. set (self' := (dereferences n self w).1.2) in *.
  assert (Hrefl : forall r, RemotePath_eqb r r = true).
  { intros [| |s]; cbn; [reflexivity..|apply String.eqb_refl]. }
  split; [|split].
  - intros [|g|?|?|?]; cbn; rewrite ?Hc, ?Hp, ?Hr; reflexivity.
  - intros g. cbn. rewrite Hc, Hp, Hr. reflexivity.
  - cbn. rewrite Hc, Hp, Hr, !String.eqb_refl, Hrefl. reflexivity.
Qed.
End FileTransformerMore.

(** * Further properties of the structured dataset transformer *)

Section StructuredDatasetTransformerMore.
Import structured_dataset.

Ltac run :=
  unfold mbind, M_bind, mret, M_ret, raise, emit, read, modify, outcome, lift_result; cbn.

(** ** Upload *)

Lemma upload_run from_type to_type uri df w :
  upload from_type to_type uri df w
  = match _get_handler from_type to_type (DATASET_PERSISTENCE_HANDLERS w) with
    | Some h => persist h df uri w
    | None =>
        match _get_handler from_type _get_intermediate_format (DATASET_ENCODING_HANDLERS w),
              _get_handler _get_intermediate_format to_type (DATASET_PERSISTENCE_HANDLERS w) with
        | Some en, Some pe => (table ← encode en df; persist pe table uri) w
        | _, _ => (Raises NotImplementedError, w)
        end
    end.
Proof.
  unfold upload, mbind, M_bind, read.
  destruct (_get_handler from_type to_type _); [reflexivity|].
  destruct (_get_handler from_type _get_intermediate_format _); [|reflexivity].
  destruct (_get_handler _get_intermediate_format to_type _); reflexivity.
Qed.

Lemma persist_run h df uri w :
  persist h df uri w = (persist_method h df uri, logged [Ev_persist (handler_id h) df uri] w).
Proof. unfold persist. run. apply lift_result_run. Qed.

Lemma encode_run h df w :
  encode h df w = (encode_method h df, logged [Ev_encode (handler_id h) df] w).
Proof. unfold encode. run. apply lift_result_run. Qed.

(** X15: [upload] first looks for a persistence handler registered for
    (from_type, to_type): when there is one, it is called once with the
    dataframe and the uri, and the outcome of that call is the outcome of
    [upload].  When there is none and both an encoding handler for
    (from_type, intermediate) and a persistence handler for (intermediate,
    to_type) are registered, the dataframe is encoded and the table it gives
    is persisted at the uri.  [upload] raises its own [NotImplementedError],
    with no handler called, exactly when neither path is complete. *)
Theorem upload_dispatch from_type to_type uri df w :
  let direct := _get_handler from_type to_type (DATASET_PERSISTENCE_HANDLERS w) in
  let hop1 := _get_handler from_type _get_intermediate_format (DATASET_ENCODING_HANDLERS w) in
  let hop2 := _get_handler _get_intermediate_format to_type (DATASET_PERSISTENCE_HANDLERS w) in
  (forall h, direct = Some h ->
     upload from_type to_type uri df w
     = (persist_method h df uri, logged [Ev_persist (handler_id h) df uri] w))
  /\ (forall en pe, direct = None -> hop1 = Some en -> hop2 = Some pe ->
      upload from_type to_type uri df w
      = match encode_method en df with
        | Returns table =>
            (persist_method pe table uri,
             logged [Ev_encode (handler_id en) df; Ev_persist (handler_id pe) table uri] w)
        | Raises e => (Raises e, logged [Ev_encode (handler_id en) df] w)
        end)
  /\ (upload from_type to_type uri df w = (Raises NotImplementedError, w)
      <-> direct = None /\ (hop1 = None \/ hop2 = None)).
Proof.
  intros direct hop1 hop2.
  assert (Hdirect : forall h, direct = Some h ->
     upload from_type to_type uri df w
     = (persist_method h df uri, logged [Ev_persist (handler_id h) df uri] w)).
  { intros h Hh. rewrite upload_run. fold direct. rewrite Hh. apply persist_run. }
  assert (Hhops : forall en pe, direct = None -> hop1 = Some en -> hop2 = Some pe ->
      upload from_type to_type uri df w
      = match encode_method en df with
        | Returns table =>
            (persist_method pe table uri,
             logged [Ev_encode (handler_id en) df; Ev_persist (handler_id pe) table uri] w)
        | Raises e => (Raises e, logged [Ev_encode (handler_id en) df] w)
        end).
  { intros en pe Hn H1 H2. rewrite upload_run. fold direct hop1 hop2. rewrite Hn, H1, H2.
    unfold mbind, M_bind. rewrite encode_run.
    destruct (encode_method en df) as [table|e]; [|reflexivity].
    rewrite persist_run. unfold logged. cbn. rewrite <- app_assoc. reflexivity. }
  split; [exact Hdirect|]. split; [exact Hhops|].
  split.
  - intros Hrun. destruct direct as [h|] eqn:Hd.
    + rewrite (Hdirect h eq_refl) in Hrun. apply (f_equal snd) in Hrun.
      exfalso. exact (logged_neq _ _ _ Hrun).
    + split; [reflexivity|].
      destruct hop1 as [en|] eqn:H1; [|left; reflexivity].
      destruct hop2 as [pe|] eqn:H2; [|right; reflexivity].
      rewrite (Hhops en pe eq_refl eq_refl eq_refl) in Hrun.
      exfalso. destruct (encode_method en df); apply (f_equal snd) in Hrun;
        exact (logged_neq _ _ _ Hrun).
  - intros [Hn Hh]. rewrite upload_run. fold direct hop1 hop2. rewrite Hn.
    destruct Hh as [Hh | Hh]; rewrite Hh; [reflexivity|]. destruct hop1; reflexivity.
Qed.

Lemma upload_dispatch_witness :
  let w1 := (register_handler pd_DataFrame_key pa_Table_key example_encoding_handler
               (initial_world [])).2 in
  let w2 := (register_handler pa_Table_key (key_format PARQUET) example_persistence_handler
               w1).2 in
  upload pa_Table_key (key_format PARQUET) "s3://b/k" (pa_Table [("a", pa_int64)] 7) w2
  = (Returns tt, logged [Ev_persist 4 (pa_Table [("a", pa_int64)] 7) "s3://b/k"] w2)
  /\ upload pd_DataFrame_key (key_format PARQUET) "s3://b/k"
       (pd_DataFrame [("a", pa_int64)] 7) w2
     = (Returns tt,
        logged [Ev_encode 5 (pd_DataFrame [("a", pa_int64)] 7);
                Ev_persist 4 (pa_Table [("a", pa_int64)] 7) "s3://b/k"] w2)
  /\ upload pd_DataFrame_key (key_format BIGQUERY) "s3://b/k"
       (pd_DataFrame [("a", pa_int64)] 7) w2
     = (Raises NotImplementedError, w2).
Proof.
  intros w1 w2. split; [|split].
  - destruct (upload_dispatch pa_Table_key (key_format PARQUET) "s3://b/k"
                (pa_Table [("a", pa_int64)] 7) w2) as (H & _ & _).
    apply (H example_persistence_handler). vm_compute. reflexivity.
  - destruct (upload_dispatch pd_DataFrame_key (key_format PARQUET) "s3://b/k"
                (pd_DataFrame [("a", pa_int64)] 7) w2) as (_ & H & _).
    apply (H example_encoding_handler example_persistence_handler); vm_compute; reflexivity.
  - destruct (upload_dispatch pd_DataFrame_key (key_format BIGQUERY) "s3://b/k"
                (pd_DataFrame [("a", pa_int64)] 7) w2) as (_ & _ & H).
    apply H. split; [|right]; vm_compute; reflexivity.
Defined.

(** ** Registering and looking up *)

Lemma register_handler_registry from_type to_type h w r :
  get_registry r (register_handler from_type to_type h w).2
  = if selects h r
    then <[from_type := <[to_type := h]> (default ∅ (get_registry r w !! from_type))]>
           (get_registry r w)
    else get_registry r w.
Proof.
  destruct (register_types_run from_type to_type w) as (_ & _ & Hreg). cbn zeta in Hreg.
  unfold register_handler, mbind, M_bind.
  rewrite (register_type_run from_type w). cbv beta iota.
  rewrite register_type_run. cbv beta iota.
  unfold mbind, M_bind in Hreg.
  rewrite (register_type_run from_type w) in Hreg. cbv beta iota in Hreg.
  rewrite register_type_run in Hreg. cbv beta iota in Hreg. cbn [snd] in Hreg.
  set (w2 := if bool_decide (to_type ∈ _) then _ else _) in *.
  pose proof (Hreg RETRIEVAL) as H1. pose proof (Hreg PERSISTENCE) as H2.
  pose proof (Hreg ENCODING) as H3. pose proof (Hreg DECODING) as H4.
  cbn [get_registry] in H1, H2, H3, H4.
  unfold mret, M_ret, raise, modify.
  destruct (isinstance_DatasetRetrievalHandler h) eqn:HR;
    [|destruct (isinstance_DatasetPersistenceHandler h) eqn:HP;
      [|destruct (isinstance_DatasetEncodingHandler h) eqn:HE;
        [|destruct (isinstance_DatasetDecodingHandler h) eqn:HD]]];
    destruct r; cbn; rewrite ?HR, ?HP, ?HE, ?HD; cbn; rewrite ?H1, ?H2, ?H3, ?H4;
    try reflexivity;
    (match goal with
     | |- context [match ?m !! from_type with _ => _ end] =>
         destruct (m !! from_type) eqn:Hl
     end;
     [rewrite ?Hl; reflexivity
     |rewrite lookup_insert_eq, insert_insert_eq, ?Hl; reflexivity]).
Qed.

Lemma _get_handler_insert from_type to_type h (m : gmap TypeKey (gmap TypeKey Handler)) :
  _get_handler from_type to_type
    (<[from_type := <[to_type := h]> (default ∅ (m !! from_type))]> m) = Some h.
Proof. unfold _get_handler. rewrite lookup_insert_eq. apply lookup_insert_eq. Qed.

Lemma _get_handler_insert_other from_type to_type h f t
    (m : gmap TypeKey (gmap TypeKey Handler)) :
  (f, t) <> (from_type, to_type) ->
  _get_handler f t (<[from_type := <[to_type := h]> (default ∅ (m !! from_type))]> m)
  = _get_handler f t m.
Proof.
  intros Hne. unfold _get_handler.
  destruct (decide (f = from_type)) as [->|Hf].
  - rewrite lookup_insert_eq.
    assert (Ht : to_type <> t) by (intros ->; apply Hne; reflexivity).
    rewrite lookup_insert_ne by exact Ht.
    destruct (m !! from_type); [reflexivity | apply lookup_empty].
  - rewrite lookup_insert_ne by (intros Heq; apply Hf; symmetry; exact Heq). reflexivity.
Qed.

(** X16: a registered handler is found again, in one registry only.  After
    [register_handler(from_type, to_type, h)] the lookup of (from_type,
    to_type) in the registry of the first class [h] is an instance of, in the
    order retrieval, persistence, encoding, decoding, gives [h], whatever was
    registered there before; the other three registries are untouched, also
    when [h] is an instance of their classes too. *)
Theorem register_handler_lookup from_type to_type h w r :
  selects h r = true ->
  let w' := (register_handler from_type to_type h w).2 in
  _get_handler from_type to_type (get_registry r w') = Some h
  /\ (forall r', r' <> r -> get_registry r' w' = get_registry r' w)
  /\ (isinstance_DatasetRetrievalHandler h = true -> r = RETRIEVAL).
Proof.
  intros Hsel w'. subst w'. split; [|split].
  - rewrite register_handler_registry, Hsel. apply _get_handler_insert.
  - intros r' Hne. rewrite register_handler_registry.
    destruct (selects h r') eqn:Hsel'; [|reflexivity].
    exfalso. apply Hne.
    destruct r, r'; try reflexivity; cbn in Hsel, Hsel';
      destruct (isinstance_DatasetRetrievalHandler h),
               (isinstance_DatasetPersistenceHandler h),
               (isinstance_DatasetEncodingHandler h),
               (isinstance_DatasetDecodingHandler h); discriminate.
  - intros HR. destruct r; [reflexivity|..]; cbn in Hsel; rewrite HR in Hsel; discriminate.
Qed.

Lemma register_handler_lookup_witness :
  let both := {| handler_id := 6;
                 isinstance_DatasetRetrievalHandler := true;
                 isinstance_DatasetPersistenceHandler := false;
                 isinstance_DatasetEncodingHandler := false;
                 isinstance_DatasetDecodingHandler := true;
                 retrieve_method := fun _ => no_method;
                 persist_method := fun _ _ => no_method;
                 encode_method := fun _ => no_method;
                 decode_method := fun _ => no_method |} in
  let w' := (register_handler (key_format PARQUET) pa_Table_key both (initial_world [])).2 in
  _get_handler (key_format PARQUET) pa_Table_key (DATASET_RETRIEVAL_HANDLERS w') = Some both
  /\ DATASET_DECODING_HANDLERS w' = ∅.
Proof.
  intros both w'.
  destruct (register_handler_lookup (key_format PARQUET) pa_Table_key both (initial_world [])
              RETRIEVAL eq_refl) as (Hget & Hother & _).
  split; [exact Hget|]. apply (Hother DECODING). discriminate.
Defined.

(** X17: registering a handler for one pair leaves every other pair as it
    was, in all four registries, whatever the handler is: the handlers
    already registered under the same [from_type] for other target types are
    kept. *)
Theorem register_handler_other_pairs from_type to_type h w f t r :
  (f, t) <> (from_type, to_type) ->
  _get_handler f t (get_registry r (register_handler from_type to_type h w).2)
  = _get_handler f t (get_registry r w).
Proof.
  intros Hne. rewrite register_handler_registry.
  destruct (selects h r); [|reflexivity].
  apply _get_handler_insert_other. exact Hne.
Qed.

Lemma register_handler_other_pairs_witness :
  let w1 := (register_handler (key_format PARQUET) pa_Table_key example_retrieval_handler
               (initial_world [])).2 in
  let other := {| handler_id := 8;
                  isinstance_DatasetRetrievalHandler := true;
                  isinstance_DatasetPersistenceHandler := false;
                  isinstance_DatasetEncodingHandler := false;
                  isinstance_DatasetDecodingHandler := false;
                  retrieve_method := fun _ => no_method;
                  persist_method := fun _ _ => no_method;
                  encode_method := fun _ => no_method;
                  decode_method := fun _ => no_method |} in
  _get_handler (key_format PARQUET) pa_Table_key
    (get_registry RETRIEVAL
       (register_handler (key_format PARQUET) pd_DataFrame_key other w1).2)
  = Some example_retrieval_handler.
Proof.
  intros w1 other.
  rewrite (register_handler_other_pairs (key_format PARQUET) pd_DataFrame_key other w1
             (key_format PARQUET) pa_Table_key RETRIEVAL).
  - vm_compute. reflexivity.
  - discriminate.
Defined.

(** X18: registration and download compose.  Once a retrieval handler [r]
    has been registered for (from_type, intermediate) and then a decoding
    handler [d] for (intermediate, to_type), with no retrieval handler
    registered for (from_type, to_type) itself, [download(from_type, to_type,
    uri)] calls [r] with the uri and [d] with the table [r] returned. *)
Theorem register_then_download from_type to_type r d uri w :
  isinstance_DatasetRetrievalHandler r = true ->
  selects d DECODING = true ->
  to_type <> _get_intermediate_format ->
  _get_handler from_type to_type (DATASET_RETRIEVAL_HANDLERS w) = None ->
  let w1 := (register_handler from_type _get_intermediate_format r w).2 in
  let w2 := (register_handler _get_intermediate_format to_type d w1).2 in
  download from_type to_type uri w2
  = match retrieve_method r uri with
    | Returns table =>
        (decode_method d table,
         logged [Ev_retrieve (handler_id r) uri; Ev_decode (handler_id d) table] w2)
    | Raises e => (Raises e, logged [Ev_retrieve (handler_id r) uri] w2)
    end.
Proof.
  intros HR HD Hto Hnone w1 w2.
  assert (Hretr : DATASET_RETRIEVAL_HANDLERS w2 = DATASET_RETRIEVAL_HANDLERS w1).
  { subst w2. change (DATASET_RETRIEVAL_HANDLERS ?x) with (get_registry RETRIEVAL x).
    rewrite register_handler_registry.
    assert (Hs : selects d RETRIEVAL = false).
    { cbn in HD |- *. destruct (isinstance_DatasetRetrievalHandler d); [discriminate|reflexivity]. }
    rewrite Hs. reflexivity. }
  assert (Hdirect : _get_handler from_type to_type (DATASET_RETRIEVAL_HANDLERS w2) = None).
  { rewrite Hretr. subst w1.
    change (DATASET_RETRIEVAL_HANDLERS ?x) with (get_registry RETRIEVAL x).
    rewrite register_handler_registry. cbn [selects]. rewrite HR.
    rewrite _get_handler_insert_other; [exact Hnone|].
    intros Heq. inversion Heq. contradiction. }
  assert (Hhop1 : _get_handler from_type _get_intermediate_format
                    (DATASET_RETRIEVAL_HANDLERS w2) = Some r).
  { rewrite Hretr. subst w1.
    change (DATASET_RETRIEVAL_HANDLERS ?x) with (get_registry RETRIEVAL x).
    rewrite register_handler_registry. cbn [selects]. rewrite HR.
    apply _get_handler_insert. }
  assert (Hhop2 : _get_handler _get_intermediate_format to_type
                    (DATASET_DECODING_HANDLERS w2) = Some d).
  { subst w2. change (DATASET_DECODING_HANDLERS ?x) with (get_registry DECODING x).
    rewrite register_handler_registry, HD. apply _get_handler_insert. }
  rewrite download_run, Hdirect, Hhop1, Hhop2.
  unfold mbind, M_bind. rewrite retrieve_run.
  destruct (retrieve_method r uri) as [table|e]; [|reflexivity].
  rewrite decode_run. unfold logged. cbn. rewrite <- app_assoc. reflexivity.
Qed.

Lemma register_then_download_witness :
  let w1 := (register_handler (key_format PARQUET) _get_intermediate_format
               example_retrieval_handler (initial_world [])).2 in
  let w2 := (register_handler _get_intermediate_format pd_DataFrame_key
               example_decoding_handler w1).2 in
  download (key_format PARQUET) pd_DataFrame_key "s3://b/k" w2
  = (Returns (pd_DataFrame [("a", pa_int64)] 7),
     logged [Ev_retrieve 1 "s3://b/k"; Ev_decode 2 (pa_Table [("a", pa_int64)] 7)] w2).
Proof.
  intros w1 w2.
  apply (register_then_download (key_format PARQUET) pd_DataFrame_key
           example_retrieval_handler example_decoding_handler "s3://b/k" (initial_world []));
    try reflexivity.
  discriminate.
Defined.

(** ** Formats *)

(** X19: [DatasetFormat.value_of] accepts exactly the member names: it
    returns [f] for the name of [f] and raises [ValueError] for every other
    string.  So decoding a literal whose format is not one of those names
    raises [ValueError] before any handler is looked up or called. *)
Theorem value_of_names :
  (forall s f, value_of s = Returns f <-> s = DatasetFormat_name f)
  /\ (forall s, (forall f, s <> DatasetFormat_name f) -> value_of s = Raises ValueError)
  /\ (forall ctx uri s t expected w,
       (forall f, s <> DatasetFormat_name f) ->
       to_python_value ctx (StructuredDataset_literal uri s t) expected w
       = (Raises ValueError, w)).
Proof.
  assert (Hiff : forall s f, value_of s = Returns f <-> s = DatasetFormat_name f).
  { intros s f. unfold value_of.
    destruct (String.eqb_spec "PARQUET" s) as [<-|Hp].
    - destruct f; cbn; split; intros H; try reflexivity; discriminate H.
    - destruct (String.eqb_spec "BIGQUERY" s) as [<-|Hb].
      + destruct f; cbn; split; intros H; try reflexivity; discriminate H.
      + split; [discriminate|]. intros ->. destruct f; cbn in *; congruence. }
  assert (Hno : forall s, (forall f, s <> DatasetFormat_name f) ->
                          value_of s = Raises ValueError).
  { intros s Hs. unfold value_of.
    destruct (String.eqb_spec "PARQUET" s) as [<-|Hp]; [destruct (Hs PARQUET eq_refl)|].
    destruct (String.eqb_spec "BIGQUERY" s) as [<-|Hb]; [destruct (Hs BIGQUERY eq_refl)|].
    reflexivity. }
  split; [exact Hiff|]. split; [exact Hno|].
  intros ctx uri s t expected w Hs. unfold to_python_value. cbn.
  rewrite (Hno s Hs). reflexivity.
Qed.

Lemma value_of_names_witness :
  value_of "parquet" = Raises ValueError.
Proof.
  destruct value_of_names as (_ & H & _). apply H.
  intros []; discriminate.
Defined.

(** ** Encoding datasets *)

Lemma schema_cols_missing schema k t :
  (k, t) ∈ schema -> _SUPPORTED_TYPES t = None -> schema_cols schema = Raises KeyError.
Proof.
  induction schema as [|[k' t'] schema IH]; intros Hin Ht; [inversion Hin|].
  apply elem_of_cons in Hin as [Heq | Hin]; cbn.
  - inversion Heq; subst. rewrite Ht. reflexivity.
  - destruct (_SUPPORTED_TYPES t'); cbn; [|reflexivity].
    rewrite (IH Hin Ht). reflexivity.
Qed.

(** X20: a [StructuredDataset] value with a local path is copied as a file:
    one [put_data(local_path, uri)] call, with [uri] the remote path of the
    value or else a minted one, and no handler is looked up or called, even
    when the value also carries a dataframe. *)
Theorem to_literal_local_path ctx sd lp python_type expected w :
  local_path sd = Some lp ->
  lp <> "" ->
  let uri := if truthy (remote_path sd) then default "" (remote_path sd)
             else fa_random_remote_path (file_access ctx) (minted w) None in
  let w0 := if truthy (remote_path sd) then w
            else logged [Ev_get_random_remote_path None] (set_minted (S (minted w)) w) in
  let r := to_literal ctx (value_StructuredDataset sd) python_type expected w in
  r.2 = logged [Ev_put_data lp uri false] w0
  /\ (fa_put_data_outcome (file_access ctx) lp uri = None ->
      r.1 = match converted_cols (columns (class_of sd)) with
            | Returns cols =>
                Returns (StructuredDataset_literal uri (DatasetFormat_name (file_format sd)) cols)
            | Raises e => Raises e
            end).
Proof.
  intros Hlp Hne uri w0 r. subst r uri w0.
  unfold to_literal, get_random_remote_path, put_data. rewrite Hlp.
  destruct lp as [|c lp]; [contradiction|]. run.
  destruct (truthy (remote_path sd)); run;
    destruct (fa_put_data_outcome _ _ _); cbn;
    destruct (converted_cols (columns (class_of sd))); cbn;
    unfold logged; cbn; rewrite <- ?app_assoc; split; try reflexivity; discriminate.
Qed.

Lemma to_literal_local_path_witness :
  let sd := __init__ StructuredDataset_class (Some (pd_DataFrame [("a", pa_int64)] 7))
              (Some "/tmp/data.parquet") (Some "s3://bucket/data") PARQUET None in
  to_literal example_ctx (value_StructuredDataset sd)
    (type_StructuredDataset StructuredDataset_class) (LiteralType_structured_dataset_type [])
    (initial_world [])
  = (Returns (StructuredDataset_literal "s3://bucket/data" "PARQUET" []),
     logged [Ev_put_data "/tmp/data.parquet" "s3://bucket/data" false] (initial_world [])).
Proof.
  intros sd.
  destruct (to_literal_local_path example_ctx sd "/tmp/data.parquet"
              (type_StructuredDataset StructuredDataset_class)
              (LiteralType_structured_dataset_type []) (initial_world []) eq_refl)
    as [Hw Hr]; [discriminate|].
  specialize (Hr eq_refl).
  destruct (to_literal example_ctx (value_StructuredDataset sd)
              (type_StructuredDataset StructuredDataset_class)
              (LiteralType_structured_dataset_type []) (initial_world [])) as [r w'].
  cbn in Hw, Hr. rewrite Hw, Hr. reflexivity.
Defined.

(** X21: a bare dataframe is encoded as PARQUET at a minted uri.  When
    neither a persistence handler for (its type, PARQUET) nor an encoding
    handler to the intermediate format together with a persistence handler
    from it are registered, [to_literal] raises [NotImplementedError]; the
    path has been minted by then and no handler has been called. *)
Theorem to_literal_dataframe_no_handler ctx df python_type expected w :
  _get_handler (type_of df) (key_format PARQUET) (DATASET_PERSISTENCE_HANDLERS w) = None ->
  _get_handler (type_of df) _get_intermediate_format (DATASET_ENCODING_HANDLERS w) = None
  \/ _get_handler _get_intermediate_format (key_format PARQUET)
       (DATASET_PERSISTENCE_HANDLERS w) = None ->
  to_literal ctx (value_dataframe df) python_type expected w
  = (Raises NotImplementedError,
     logged [Ev_get_random_remote_path None] (set_minted (S (minted w)) w)).
Proof.
  intros Hd Hh. unfold to_literal, get_random_remote_path. run.
  rewrite upload_run. cbn. rewrite Hd.
  destruct Hh as [Hh | Hh]; rewrite Hh; [reflexivity|].
  destruct (_get_handler (type_of df) _get_intermediate_format
              (DATASET_ENCODING_HANDLERS _)); reflexivity.
Qed.

Lemma to_literal_dataframe_no_handler_witness :
  to_literal example_ctx (value_dataframe (pd_DataFrame [("a", pa_int64)] 7))
    (type_class "pandas.DataFrame") (LiteralType_structured_dataset_type []) (initial_world [])
  = (Raises NotImplementedError,
     logged [Ev_get_random_remote_path None] (set_minted 1 (initial_world []))).
Proof.
  apply to_literal_dataframe_no_handler; [reflexivity | left; reflexivity].
Defined.

(** X22: the column types are read off the value only after the upload.  For
    an Arrow table or a data frame with a column whose type is not a key of
    the supported-type table, and a registered persistence handler whose call
    returns, [to_literal] persists the data at the minted uri and then raises
    [KeyError]. *)
Theorem to_literal_persists_then_KeyError ctx df schema k t h python_type expected w :
  (exists payload, df = pa_Table schema payload \/ df = pd_DataFrame schema payload) ->
  (k, t) ∈ schema ->
  _SUPPORTED_TYPES t = None ->
  let uri := fa_random_remote_path (file_access ctx) (minted w) None in
  _get_handler (type_of df) (key_format PARQUET) (DATASET_PERSISTENCE_HANDLERS w) = Some h ->
  persist_method h df uri = Returns tt ->
  to_literal ctx (value_dataframe df) python_type expected w
  = (Raises KeyError,
     logged [Ev_get_random_remote_path None; Ev_persist (handler_id h) df uri]
       (set_minted (S (minted w)) w)).
Proof.
  intros (payload & Hdf) Hin Ht uri Hh Hp. subst uri.
  pose proof (schema_cols_missing schema k t Hin Ht) as Hs.
  destruct Hdf as [-> | ->]; cbn in Hh;
    unfold to_literal, get_random_remote_path; run;
    rewrite upload_run; cbn; rewrite Hh, persist_run, Hp; cbn; rewrite Hs; cbn;
    unfold logged; cbn; rewrite <- app_assoc; reflexivity.
Qed.

Lemma to_literal_persists_then_KeyError_witness :
  let df := pa_Table [("a", pa_int64); ("tags", unsupported_type "list<string>")] 7 in
  let w := (register_handler pa_Table_key (key_format PARQUET) example_persistence_handler
              (initial_world [])).2 in
  to_literal example_ctx (value_dataframe df) (type_class "pyarrow.Table")
    (LiteralType_structured_dataset_type []) w
  = (Raises KeyError,
     logged [Ev_get_random_remote_path None; Ev_persist 4 df "s3://raw-output/"]
       (set_minted 1 w)).
Proof.
  intros df w.
  apply (to_literal_persists_then_KeyError example_ctx df
           [("a", pa_int64); ("tags", unsupported_type "list<string>")]
           "tags" (unsupported_type "list<string>") example_persistence_handler
           (type_class "pyarrow.Table") (LiteralType_structured_dataset_type []) w).
  - exists 7. left. reflexivity.
  - right; left.
  - reflexivity.
  - vm_compute. reflexivity.
  - reflexivity.
Defined.

(** X23: a dataset literal goes to a [StructuredDataset] value and back.
    Decoding with a [StructuredDataset] class expected calls nothing and
    returns a value that only carries the uri and the format; encoding that
    value calls nothing either and gives back the uri (when not empty), the
    format name and the literal types of the columns of the class. *)
Theorem structured_decode_encode ctx uri f t cls python_type expected w :
  uri <> "" ->
  exists sd,
    to_python_value ctx (StructuredDataset_literal uri (DatasetFormat_name f) t)
      (type_StructuredDataset cls) w
    = (Returns (value_StructuredDataset sd), w)
    /\ dataframe sd = None /\ local_path sd = None
    /\ remote_path sd = Some uri /\ file_format sd = f /\ class_of sd = cls
    /\ (converted_cols (columns cls) = Returns t ->
        to_literal ctx (value_StructuredDataset sd) python_type expected w
        = (Returns (StructuredDataset_literal uri (DatasetFormat_name f) t), w)).
Proof.
  intros Hne. exists (__init__ cls None None (Some uri) f None).
  unfold to_python_value. cbn.
  assert (Hv : value_of (DatasetFormat_name f) = Returns f) by (destruct f; reflexivity).
  rewrite Hv. cbn. repeat split.
  intros Hc. unfold to_literal. cbn.
  destruct uri as [|c uri]; [contradiction|]. run. rewrite Hc. reflexivity.
Qed.

Lemma structured_decode_encode_witness :
  exists sd,
    to_python_value example_ctx
      (StructuredDataset_literal "s3://bucket/data" "BIGQUERY"
         [Build_DatasetColumn "id" (LiteralType_simple INTEGER)])
      (type_StructuredDataset (_TypedStructuredDataset [("id", py_int)])) (initial_world [])
    = (Returns (value_StructuredDataset sd), initial_world [])
    /\ to_literal example_ctx (value_StructuredDataset sd)
         (type_StructuredDataset (_TypedStructuredDataset [("id", py_int)]))
         (LiteralType_structured_dataset_type []) (initial_world [])
       = (Returns (StructuredDataset_literal "s3://bucket/data" "BIGQUERY"
                     [Build_DatasetColumn "id" (LiteralType_simple INTEGER)]),
          initial_world []).
Proof.
  destruct (structured_decode_encode example_ctx "s3://bucket/data" BIGQUERY
              [Build_DatasetColumn "id" (LiteralType_simple INTEGER)]
              (_TypedStructuredDataset [("id", py_int)])
              (type_StructuredDataset (_TypedStructuredDataset [("id", py_int)]))
              (LiteralType_structured_dataset_type []) (initial_world []))
    as (sd & Hdec & _ & _ & _ & _ & _ & Henc); [discriminate|].
  exists sd. split; [exact Hdec | apply Henc; reflexivity].
Defined.

(** ** Guessing types *)

Lemma dict_setitem_keys {V} k (v : V) d :
  (dict_setitem k v d).*1 = if bool_decide (k ∈ d.*1) then d.*1 else d.*1 ++ [k].
Proof.
  induction d as [|[k' v'] d IH]; cbn; [reflexivity|].
  destruct (String.eqb_spec k k') as [->|Hne]; cbn.
  - rewrite bool_decide_eq_true_2 by (left). reflexivity.
  - rewrite IH. destruct (bool_decide (k ∈ d.*1)) eqn:Hk.
    + apply bool_decide_eq_true in Hk.
      rewrite bool_decide_eq_true_2 by (right; exact Hk). reflexivity.
    + apply bool_decide_eq_false in Hk.
      rewrite bool_decide_eq_false_2; [reflexivity|].
      intros [?|?]%elem_of_cons; contradiction.
Qed.

Lemma dict_setitem_NoDup {V} k (v : V) d :
  NoDup d.*1 -> NoDup (dict_setitem k v d).*1.
Proof.
  intros Hnd. rewrite dict_setitem_keys. case_bool_decide; [exact Hnd|].
  apply NoDup_app. split; [exact Hnd|]. split; [|apply NoDup_singleton].
  intros x Hx Hk. apply list_elem_of_singleton in Hk. subst. contradiction.
Qed.

Lemma dict_setitem_elem {V} k (v : V) d x :
  x ∈ (dict_setitem k v d).*1 <-> x = k \/ x ∈ d.*1.
Proof.
  rewrite dict_setitem_keys. case_bool_decide.
  - split; [auto|]. intros [->|?]; assumption.
  - rewrite elem_of_app, list_elem_of_singleton. tauto.
Qed.

Lemma guess_columns_keys literal_columns : forall acc columns,
  guess_columns literal_columns acc = Returns columns ->
  (NoDup acc.*1 -> NoDup columns.*1)
  /\ (forall x, x ∈ columns.*1 <-> x ∈ acc.*1 \/ x ∈ name <$> literal_columns).
Proof.
  induction literal_columns as [|c l IH]; intros acc columns; cbn.
  - intros H; inversion H; subst. split; [auto|]. intros x. rewrite elem_of_nil. tauto.
  - destruct (simple (literal_type c)) as [[]|]; try discriminate; intros H;
      apply IH in H as [Hnd Hin];
      (split; [intros Ha; apply Hnd, dict_setitem_NoDup, Ha|]);
      intros x; rewrite Hin, dict_setitem_elem, elem_of_cons; tauto.
Qed.

(** X24: whatever the literal type, the class [guess_python_type] returns
    has pairwise distinct column names, and they are exactly the names of the
    literal columns: a name that occurs twice yields one column. *)
Theorem guess_python_type_column_names lt literal_columns cls :
  structured_dataset_type lt = Some literal_columns ->
  guess_python_type lt = Returns cls ->
  NoDup (column_names cls)
  /\ (forall x, x ∈ column_names cls <-> x ∈ name <$> literal_columns).
Proof.
  intros Hlt. unfold guess_python_type. rewrite Hlt.
  destruct (guess_columns literal_columns []) as [columns|e] eqn:Hg; cbn; [|discriminate].
  apply guess_columns_keys in Hg as [Hnd Hin].
  unfold column_names.
  destruct columns as [|c0 columns]; cbn; intros H; inversion H; subst; cbn.
  - split; [constructor|]. intros x. rewrite (Hin x). cbn. rewrite elem_of_nil. tauto.
  - split; [apply Hnd; constructor|]. intros x. rewrite (Hin x). cbn.
    rewrite elem_of_nil. tauto.
Qed.

Lemma guess_python_type_column_names_witness :
  let lt := LiteralType_structured_dataset_type
              [Build_DatasetColumn "a" (LiteralType_simple INTEGER);
               Build_DatasetColumn "b" (LiteralType_simple FLOAT);
               Build_DatasetColumn "a" (LiteralType_simple STRING)] in
  guess_python_type lt = Returns (_TypedStructuredDataset [("a", py_str); ("b", py_float)])
  /\ NoDup (column_names (_TypedStructuredDataset [("a", py_str); ("b", py_float)])).
Proof.
  intros lt. split; [reflexivity|].
  apply (guess_python_type_column_names lt
           [Build_DatasetColumn "a" (LiteralType_simple INTEGER);
            Build_DatasetColumn "b" (LiteralType_simple FLOAT);
            Build_DatasetColumn "a" (LiteralType_simple STRING)]); reflexivity.
Defined.

Lemma guess_supported_cols cols : forall acc,
  Forall (fun c => is_Some (_SUPPORTED_TYPES c.2)) cols ->
  NoDup (acc.*1 ++ cols.*1) ->
  exists literal_columns cols',
    converted_cols cols = Returns literal_columns
    /\ guess_columns literal_columns acc = Returns (acc ++ cols')
    /\ cols'.*1 = cols.*1
    /\ converted_cols cols' = Returns literal_columns.
Proof.
  induction cols as [|[k v] cols IH]; intros acc Hc Hnd.
  - exists [], []. rewrite app_nil_r. repeat split.
  - apply Forall_cons in Hc as [Hv Hc]. cbn in Hv, Hnd.
    assert (Hk : k ∉ acc.*1).
    { apply NoDup_app in Hnd as (_ & Hd & _). intros Hin. apply (Hd k Hin). left. }
    assert (Hstep : forall v', exists lcs cols'',
      converted_cols cols = Returns lcs
      /\ guess_columns lcs (dict_setitem k v' acc) = Returns (acc ++ (k, v') :: cols'')
      /\ cols''.*1 = cols.*1 /\ converted_cols cols'' = Returns lcs).
    { intros v'. rewrite (dict_setitem_fresh k v' acc Hk).
      assert (Hnd' : NoDup ((acc ++ [(k, v')]).*1 ++ cols.*1)).
      { rewrite fmap_app. cbn. rewrite <- app_assoc. exact Hnd. }
      destruct (IH (acc ++ [(k, v')]) Hc Hnd') as (lcs & cols'' & H1 & H2 & H3 & H4).
      exists lcs, cols''. rewrite <- app_assoc in H2. auto. }
    destruct Hv as [lt Hv].
    destruct v; cbn in Hv; try discriminate Hv; cbn;
      match goal with
      | |- context [LiteralType_simple INTEGER] => destruct (Hstep py_int) as (lcs & cols'' & H1 & H2 & H3 & H4); exists (Build_DatasetColumn k (LiteralType_simple INTEGER) :: lcs), ((k, py_int) :: cols'')
      | |- context [LiteralType_simple FLOAT] => destruct (Hstep py_float) as (lcs & cols'' & H1 & H2 & H3 & H4); exists (Build_DatasetColumn k (LiteralType_simple FLOAT) :: lcs), ((k, py_float) :: cols'')
      | |- context [LiteralType_simple BOOLEAN] => destruct (Hstep py_bool) as (lcs & cols'' & H1 & H2 & H3 & H4); exists (Build_DatasetColumn k (LiteralType_simple BOOLEAN) :: lcs), ((k, py_bool) :: cols'')
      | |- context [LiteralType_simple DATETIME] => destruct (Hstep datetime_datetime) as (lcs & cols'' & H1 & H2 & H3 & H4); exists (Build_DatasetColumn k (LiteralType_simple DATETIME) :: lcs), ((k, datetime_datetime) :: cols'')
      | |- context [LiteralType_simple DURATION] => destruct (Hstep datetime_timedelta) as (lcs & cols'' & H1 & H2 & H3 & H4); exists (Build_DatasetColumn k (LiteralType_simple DURATION) :: lcs), ((k, datetime_timedelta) :: cols'')
      | |- context [LiteralType_simple STRING] => destruct (Hstep py_str) as (lcs & cols'' & H1 & H2 & H3 & H4); exists (Build_DatasetColumn k (LiteralType_simple STRING) :: lcs), ((k, py_str) :: cols'')
      end;
      rewrite H1; cbn; rewrite H2, H3, H4; repeat split.
Qed.

(** X25: guessing is a right inverse of [get_literal_type] on the columns of
    the supported-type table.  For a dict of columns whose types are keys of
    the table (NumPy and Arrow types included), guessing the Python type of
    the literal type of [StructuredDataset[columns]] returns a class with the
    same column names in the same order, and that class has the same literal
    type again. *)
Theorem guess_python_type_right_inverse (cols : list (string * ColumnType)) :
  NoDup cols.*1 ->
  Forall (fun c => is_Some (_SUPPORTED_TYPES c.2)) cols ->
  exists lt cls',
    get_literal_type (type_StructuredDataset (_TypedStructuredDataset cols)) = Returns lt
    /\ guess_python_type lt = Returns cls'
    /\ column_names cls' = cols.*1
    /\ get_literal_type (type_StructuredDataset cls') = Returns lt.
Proof.
  intros Hnd Hc.
  destruct (guess_supported_cols cols [] Hc Hnd) as (lcs & cols' & H1 & H2 & H3 & H4).
  cbn in H2.
  exists (LiteralType_structured_dataset_type lcs).
  assert (Hcls : exists cls',
    __class_getitem__ StructuredDataset_class (subscript_dict cols') = Returns cls'
    /\ columns cls' = cols').
  { destruct cols'; cbn; eexists; split; reflexivity. }
  destruct Hcls as (cls' & Hget & Hcols). exists cls'.
  unfold get_literal_type, _get_dataset_type, guess_python_type, column_names. cbn.
  rewrite H1, H2, Hcols, H4. cbn. auto.
Qed.

Lemma guess_python_type_right_inverse_witness :
  exists lt cls',
    get_literal_type (type_StructuredDataset
                        (_TypedStructuredDataset [("id", np_int64); ("name", pa_string)]))
    = Returns lt
    /\ guess_python_type lt = Returns cls'
    /\ column_names cls' = ["id"; "name"]
    /\ get_literal_type (type_StructuredDataset cls') = Returns lt.
Proof.
  apply (guess_python_type_right_inverse [("id", np_int64); ("name", pa_string)]).
  - cbn. repeat constructor; rewrite ?elem_of_cons, ?elem_of_nil; intros H;
      destruct_or?; try discriminate; assumption.
  - repeat constructor; cbn; eauto.
Defined.

Lemma converted_cols_elem cols : forall literal_columns k t,
  converted_cols cols = Returns literal_columns ->
  (k, t) ∈ cols ->
  exists lt, _get_dataset_column_literal_type t = Returns lt
             /\ Build_DatasetColumn k lt ∈ literal_columns.
Proof.
  induction cols as [|[k' t'] cols IH]; intros lcs k t Hc Hin; [inversion Hin|].
  cbn in Hc.
  destruct (_get_dataset_column_literal_type t') as [lt'|] eqn:Hlt; cbn in Hc; [|discriminate].
  destruct (converted_cols cols) as [rest|] eqn:Hrest; cbn in Hc; [|discriminate].
  inversion Hc; subst.
  apply elem_of_cons in Hin as [Heq | Hin].
  - inversion Heq; subst. exists lt'. split; [exact Hlt | left].
  - destruct (IH rest k t eq_refl Hin) as (lt & H1 & H2). exists lt. split; [exact H1|].
    right. exact H2.
Qed.

(** X26: list and dict columns can be declared but not guessed back.  When a
    class has a column of type [typing.List[...]] or [typing.Dict[...]] and
    [get_literal_type] returns its literal type (the element types are
    supported), [guess_python_type] of that literal type raises
    [ValueError]. *)
Theorem nested_columns_not_guessed cols k t lt :
  (k, t) ∈ cols ->
  (exists a, t = typing_List a) \/ (exists a b, t = typing_Dict a b) ->
  get_literal_type (type_StructuredDataset (_TypedStructuredDataset cols)) = Returns lt ->
  guess_python_type lt = Raises ValueError.
Proof.
  intros Hin Ht. unfold get_literal_type, _get_dataset_type. cbn.
  destruct (converted_cols cols) as [lcs|] eqn:Hc; cbn; [|discriminate].
  intros H; inversion H; subst. unfold guess_python_type. cbn.
  destruct (converted_cols_elem cols lcs k t Hc Hin) as (ltc & Hltc & Hmem).
  rewrite (guess_columns_not_invertible lcs [] _ Hmem); [reflexivity|].
  cbn. destruct Ht as [[a ->] | (a & b & ->)]; cbn in Hltc;
    destruct (_get_dataset_column_literal_type _); cbn in Hltc; inversion Hltc; reflexivity.
Qed.

Lemma nested_columns_not_guessed_witness :
  guess_python_type
    (LiteralType_structured_dataset_type
       [Build_DatasetColumn "id" (LiteralType_simple INTEGER);
        Build_DatasetColumn "tags" (LiteralType_collection_type (LiteralType_simple STRING))])
  = Raises ValueError.
Proof.
  apply (nested_columns_not_guessed [("id", py_int); ("tags", typing_List py_str)]
           "tags" (typing_List py_str)).
  - right; left.
  - left. exists py_str. reflexivity.
  - reflexivity.
Defined.
End StructuredDatasetTransformerMore.
